(** * Two-factor authentication service: routes and their properties

    A shallow embedding of the Express application (the full application
    with session tokens and the Freja eID login, and [server.js], the
    earlier variant without session tokens).

    Each route handler becomes a function from the request to a
    computation over the [world]: the account collection together with
    the log of the calls made to the collaborators (store, bcrypt,
    speakeasy, qrcode, jsonwebtoken, eid).  The collaborators themselves
    are the fields of the class [Collaborators]. *)

From Stdlib Require Import ZArith Lia.
From stdpp Require Import base option list strings gmap.

Local Open Scope Z_scope.
Local Open Scope string_scope.
Set Warnings "-register-all".

(** ** JavaScript values *)

(** A JSON value, as [res.json] sends it and as the eID provider
    returns it. *)
Inductive json :=
| JNull
| JBool (b : bool)
| JNum (n : Z)
| JStr (s : string)
| JArr (items : list json)
| JObj (props : list (string * json)).

(** A field destructured from [req.body]: [None] is [undefined] (the
    property is missing), [Some s] a string as the client forms send it. *)
Definition field := option string.

(** [!x] is [negb (truthy x)]: [undefined] and the empty string are falsy. *)
Definition truthy (x : field) : bool :=
  match x with
  | None => false
  | Some s => negb (String.eqb s "")
  end.

(** String coercion, as in ["..." + email]. *)
Definition to_string (x : field) : string :=
  match x with
  | None => "undefined"
  | Some s => s
  end.

(** Property access [o.k]; [None] is [undefined]. *)
Fixpoint assoc (k : string) (props : list (string * json)) : option json :=
  match props with
  | [] => None
  | (k', v) :: rest => if String.eqb k k' then Some v else assoc k rest
  end.

Definition get (o : json) (k : string) : option json :=
  match o with
  | JObj props => assoc k props
  | _ => None
  end.

(** An object literal in which a property whose value is [undefined] is
    dropped on serialisation. *)
Definition prop (k : string) (v : option json) : list (string * json) :=
  match v with
  | Some j => [(k, j)]
  | None => []
  end.

(** The outcome of a call that may throw (or of an awaited promise that
    may reject) with an error carrying [message]. *)
Inductive outcome (A : Type) :=
| Ok (a : A)
| Throw (message : string).
Arguments Ok {A} a.
Arguments Throw {A} message.

(** ** Accounts and session tokens *)

(** A document of the [User] collection. *)
Record User := {
  email : string;
  password : string;
  twoFactorSecret : option string;
}.

Definition set_twoFactorSecret (u : User) (s : string) : User :=
  {| email := email u; password := password u; twoFactorSecret := Some s |}.

(** [user.twoFactorSecret] used as a condition. *)
Definition enrolled (u : User) : bool := truthy (twoFactorSecret u).

(** The claims of a session token: the payload [{ email }] together
    with [iat] and [exp], in seconds, which [jwt.sign] adds to every
    token it makes with [expiresIn]. *)
Record claims := {
  c_email : option json;
  c_iat : Z;
  c_exp : Z;
}.

(** A signed token: header algorithm, claims, signature bytes. *)
Record jwt := {
  j_alg : string;
  j_claims : claims;
  j_sig : string;
}.

(** [req.cookies.token]: no cookie, a string that does not decode to a
    token, or the compact form of a token. *)
Inductive cookie :=
| NoCookie
| Garbled (raw : string)
| Compact (t : jwt).

(** [token] used as a condition: a missing cookie and the empty string
    are falsy. *)
Definition presented (c : cookie) : bool :=
  match c with
  | NoCookie => false
  | Garbled raw => negb (String.eqb raw "")
  | Compact _ => true
  end.

(** What [speakeasy.generateSecret] returns (the fields the routes read). *)
Record generated_secret := {
  ascii : string;
  base32 : string;
}.

(** ** Requests and responses *)

Record response := {
  status : Z;
  body : json;
  cookies : list (string * jwt);
}.

(** [res.status(code).json(body)] *)
Definition reply (code : Z) (b : json) : response :=
  {| status := code; body := b; cookies := [] |}.

(** [res.cookie(name, token, ...).json(body)] *)
Definition reply_cookie (name : string) (t : jwt) (b : json) : response :=
  {| status := 200; body := b; cookies := [(name, t)] |}.

Record register_body := { reg_email : field; reg_password : field }.
Record login_body := {
  login_email : field;
  login_password : field;
  login_twoFactorToken : field;
}.
Record check_body := { check_email : field }.
Record setup_body := { setup_email : field; setup_password : field }.
Record verify_body := { verify_email : field; verify_token : field }.
Record freja_body := { freja_login : field; freja_type : field }.

(** What each request reads from outside the process: the clock
    ([Date.now()], milliseconds) and the random source. *)
Record ambient := { now : Z; entropy : Z }.

(** ** The world: store and call log *)

Inductive event :=
| EFindOne (e : field)
| ESave (u : User)
| ECompare (pw : field) (hash : string)
| ETotpVerify (secret : option string) (token : field)
| EGenerateSecret (length : nat)
| EOtpauthURL (secret label issuer : string)
| EToDataURL (url : string)
| ESign (payload_email : option json)
| EAuthRequest (login id_type : string).

Record world := {
  db : gmap string User;
  trace : list event;
}.

Definition log (e : event) (w : world) : world :=
  {| db := db w; trace := trace w ++ [e] |}.

(** The calls made between the world [w] and a later world [w']. *)
Definition made (w w' : world) : list event :=
  drop (length (trace w)) (trace w').

(** ** Collaborators *)

Class Collaborators := {
  (** the key pair read from [./cert] at startup *)
  privateKey : string;
  publicKey : string;
  (** the hash the [User] model stores for a password *)
  bcrypt_hash : string -> string;
  (** [bcrypt.compare(data, hash)] *)
  bcrypt_compare : field -> string -> outcome bool;
  (** [speakeasy.totp.verify({ secret, encoding: "base32", token })] at
      the time [Date.now()] *)
  totp_verify : option string -> field -> Z -> outcome bool;
  (** [speakeasy.generateSecret({ length })] on the random source *)
  generateSecret : nat -> Z -> generated_secret;
  (** [speakeasy.otpauthURL({ secret, label, issuer })] *)
  otpauthURL : string -> string -> string -> string;
  (** [qrcode.toDataURL(url)] *)
  toDataURL : string -> outcome string;
  (** the signature primitive under jsonwebtoken: sign and check the
      claims for a header algorithm and a key *)
  jws_sign : string -> string -> claims -> string;
  jws_verify : string -> string -> claims -> string -> bool;
  (** [client.authRequest(login)] for a client configured with [id_type]:
      the value the promise resolves to, or [None] when it rejects *)
  authRequest : string -> string -> option json;
}.

(** ** Route computations *)

(** A step of a handler body inside [try]: it goes on with a value,
    has sent the response and returned, or has thrown. *)
Inductive step (A : Type) :=
| Next (a : A)
| Done (r : response)
| Raise (message : string).
Arguments Next {A} a.
Arguments Done {A} r.
Arguments Raise {A} message.

Definition M (A : Type) : Type := world -> world * step A.

#[global] Instance M_ret : MRet M := fun A a w => (w, Next a).
#[global] Instance M_bind : MBind M := fun A B f m w =>
  match m w with
  | (w', Next a) => f a w'
  | (w', Done r) => (w', Done r)
  | (w', Raise msg) => (w', Raise msg)
  end.

(** [return res.status(...).json(...)] *)
Definition respond {A} (r : response) : M A := fun w => (w, Done r).

(** A call to a collaborator: logged, then its value or its exception. *)
Definition call {A} (e : event) (r : outcome A) : M A := fun w =>
  (log e w, match r with Ok a => Next a | Throw msg => Raise msg end).

(** [try { body } catch (error) { handler(error.message) }] *)
Definition try_catch (body : M response) (handler : string -> response)
  : world -> world * response := fun w =>
  match body w with
  | (w', Next r) => (w', r)
  | (w', Done r) => (w', r)
  | (w', Raise msg) => (w', handler msg)
  end.

(** Modelled from the spec: the [User] model ([./models/User]) is not
    part of the sources.  The Credential Store is keyed by email:
    [findByEmail(email) -> Account | none]; an absent email names no
    account. *)
Definition stored (w : world) (e : field) : option User :=
  e ≫= (db w !!.).

(** [User.findOne({ email })] *)
Definition findOne (e : field) : M (option User) := fun w =>
  (log (EFindOne e) w, Next (stored w e)).

(** Modelled from the spec: [save(Account) -> ok] writes the account
    under its email, replacing what was stored there. *)
Definition save (u : User) : M unit := fun w =>
  ({| db := <[email u := u]> (db w); trace := trace w ++ [ESave u] |}, Next tt).

Section Routes.
Context {C : Collaborators}.

(** Modelled from the spec: [new User({ email, password })] creates an
    account with [passwordHash = Hash(password)] and no second factor
    bound. *)
Definition new_User (e p : field) : User :=
  {| email := to_string e;
     password := bcrypt_hash (to_string p);
     twoFactorSecret := None |}.

(** *** jsonwebtoken *)

(** ['1h'] as a span of seconds. *)
Definition one_hour : Z := 3600.

(** [jwt.sign({ email }, key, { algorithm, expiresIn })] *)
Definition jwt_sign (payload_email : option json) (key algorithm : string)
    (expiresIn : Z) (clock : Z) : jwt :=
  let iat := clock / 1000 in
  let cl := {| c_email := payload_email; c_iat := iat; c_exp := iat + expiresIn |} in
  {| j_alg := algorithm; j_claims := cl; j_sig := jws_sign algorithm key cl |}.

(** [jwt.verify(token, key, { algorithms }, callback)]: the callback's
    [(err, payload)] as an [outcome]. *)
Definition jwt_verify (token : cookie) (key : string) (algorithms : list string)
    (clock : Z) : outcome claims :=
  match token with
  | NoCookie => Throw "jwt must be provided"
  | Garbled _ => Throw "jwt malformed"
  | Compact t =>
      if negb (existsb (String.eqb (j_alg t)) algorithms) then Throw "invalid algorithm"
      else if negb (jws_verify (j_alg t) key (j_claims t) (j_sig t)) then Throw "invalid signature"
      else if clock / 1000 >=? c_exp (j_claims t) then Throw "jwt expired"
      else Ok (j_claims t)
  end.

(** *** Middleware *)

(** The outcome of a middleware: it answered, or it called [next()]
    having set [req.user]. *)
Inductive passed :=
| Answered (r : response)
| Forwarded (user : option json).

Definition authenticateToken (token : cookie) (clock : Z) : passed :=
  if negb (presented token) then
    Answered (reply 403 (JObj [("error", JStr "Token saknas")]))
  else
    match jwt_verify token publicKey ["RS256"] clock with
    | Throw _ =>
        Answered (reply 401 (JObj [("error", JStr "Medskickad token är inte giltig")]))
    | Ok user => Forwarded (c_email user)
    end.

(** [app.get("/authenticate", authenticateToken, ...)] *)
Definition authenticate (token : cookie) (clock : Z) : response :=
  match authenticateToken token clock with
  | Answered r => r
  | Forwarded user =>
      reply 200 (JObj (("status", JStr "success") :: prop "email" user))
  end.

(** *** Routes *)

(** [app.post("/register", ...)] *)
Definition register (req : register_body) : world -> world * response :=
  if negb (truthy (reg_email req)) || negb (truthy (reg_password req)) then
    fun w => (w, reply 400 (JObj [("error", JStr "Epost och lösenord krävs")]))
  else
    try_catch
      (userExists ← findOne (reg_email req);
       match userExists with
       | Some _ =>
           mret (reply 400 (JObj [("error", JStr "En användare med denna epost finns redan")]))
       | None =>
           let newUser := new_User (reg_email req) (reg_password req) in
           save newUser;;
           mret (reply 200 (JObj [("message", JStr ("Användare skapad med epost" +:+ to_string (reg_email req)))]))
       end)
      (fun _ => reply 500 (JObj [("error", JStr "Något gick fel vid registreringen")])).

(** [app.post("/login", ...)] *)
Definition login (req : login_body) (env : ambient) : world -> world * response :=
  try_catch
    (user ← findOne (login_email req);
     match user with
     | None =>
         respond (reply 404 (JObj [("error", JStr "Det finns ingen användare med denna epostadress")]))
     | Some user =>
         checkPassword ← call (ECompare (login_password req) (password user))
                              (bcrypt_compare (login_password req) (password user));
         if negb checkPassword then
           respond (reply 401 (JObj [("error", JStr "Fel lösenord och/eller epostadress")]))
         else
           (if enrolled user then
              checkToken ← call (ETotpVerify (twoFactorSecret user) (login_twoFactorToken req))
                                (totp_verify (twoFactorSecret user) (login_twoFactorToken req) (now env));
              if negb checkToken then
                respond (reply 401 (JObj [("error", JStr "Fel tvåstegskod, försök igen.");
                                          ("twoFactorRequired", JBool true)]))
              else mret tt
            else mret tt);;
           let payload := Some (JStr (email user)) in
           token ← call (ESign payload)
                        (Ok (jwt_sign payload privateKey "RS256" one_hour (now env)));
           mret (reply_cookie "token" token (JObj [("status", JStr "success")]))
     end)
    (fun message =>
       reply 500 (JObj [("error", JStr "Något gick fel vid inloggningen");
                        ("details", JStr message)])).

(** [app.post("/check", ...)] *)
Definition check (req : check_body) : world -> world * response :=
  try_catch
    (user ← findOne (check_email req);
     match user with
     | None => respond (reply 200 (JObj [("twoFactor", JBool false)]))
     | Some user => mret (reply 200 (JObj [("twoFactor", JBool (enrolled user))]))
     end)
    (fun _ => reply 500 (JObj [("error", JStr "Något gick fel med tvåstegsinloggningen. (check)")])).

(** [app.post("/setup", ...)] *)
Definition setup (req : setup_body) (env : ambient) : world -> world * response :=
  if negb (truthy (setup_email req)) || negb (truthy (setup_password req)) then
    fun w => (w, reply 400 (JObj [("error", JStr "Epost och lösenord krävs")]))
  else
    try_catch
      (user ← findOne (setup_email req);
       match user with
       | None => respond (reply 404 (JObj [("error", JStr "Användaren finns inte")]))
       | Some user =>
           checkPassword ← call (ECompare (setup_password req) (password user))
                                (bcrypt_compare (setup_password req) (password user));
           if negb checkPassword then
             respond (reply 401 (JObj [("error", JStr "Fel lösenord")]))
           else
             secret ← call (EGenerateSecret 20) (Ok (generateSecret 20 (entropy env)));
             let user := set_twoFactorSecret user (base32 secret) in
             save user;;
             url ← call (EOtpauthURL (ascii secret) "Bonnier" "Exjobb")
                        (Ok (otpauthURL (ascii secret) "Bonnier" "Exjobb"));
             qrCodeImageUrl ← call (EToDataURL url) (toDataURL url);
             mret (reply 200 (JObj [("qrCodeImageUrl", JStr qrCodeImageUrl)]))
       end)
      (fun _ => reply 500 (JObj [("error", JStr "Ett fel har inträffat vid konfiguration av tvåstegsinloggning. Kontakta support ()")])).

(** [app.post("/verify", ...)] *)
Definition verify (req : verify_body) (env : ambient) : world -> world * response :=
  if negb (truthy (verify_email req)) || negb (truthy (verify_token req)) then
    fun w => (w, reply 400 (JObj [("error", JStr "Epost och tvåstegskod krävs för att validera")]))
  else
    try_catch
      (user ← findOne (verify_email req);
       match user with
       | None => respond (reply 404 (JObj [("error", JStr "Användaren finns inte")]))
       | Some user =>
           let secret := twoFactorSecret user in
           verified ← call (ETotpVerify secret (verify_token req))
                           (totp_verify secret (verify_token req) (now env));
           if (verified : bool) then mret (reply 200 (JObj [("status", JStr "success")]))
           else mret (reply 400 (JObj [("error", JStr "Fel tvåstegskod, kontrollera så att koden inte gått ut.")]))
       end)
      (fun _ => reply 500 (JObj [("error", JStr "Ett fel har inträffat vid konfiguration av tvåstegsinloggning. Kontakta support ()")])).

(** [result.status === "completed"]: reading the property of [null]
    (or of [undefined], which [JNull] stands for here as well) throws;
    on any other value a missing property is [undefined], which is not
    ["completed"]. *)
Definition completed (result : json) : outcome bool :=
  match result with
  | JNull => Throw "Cannot read properties of null"
  | _ =>
      match get result "status" with
      | Some (JStr s) => Ok (String.eqb s "completed")
      | _ => Ok false
      end
  end.

(** [result.extra.primaryEmail]: reading a property of [undefined] or
    [null] throws; a missing property is [undefined]. *)
Definition primaryEmail (result : json) : outcome (option json) :=
  match get result "extra" with
  | None | Some JNull => Throw "Cannot read properties of undefined"
  | Some extra => Ok (get extra "primaryEmail")
  end.

(** [app.post("/freja", ...)].  The answer is sent from the [then]
    callback of the provider's promise; nothing handles a rejection or an
    exception of the callback, and then no response is sent ([None]). *)
Definition freja (req : freja_body) (env : ambient) : world -> world * option response :=
  let login := freja_login req in
  let type := freja_type req in
  if negb (truthy login) then
    fun w => (w, Some (reply 400 (JObj [("error", JStr "Epost eller personnummer måste anges")])))
  else
    let type := if negb (truthy type) then Some "ssn" else type in
    fun w =>
      let w := log (EAuthRequest (to_string login) (to_string type)) w in
      match authRequest (to_string login) (to_string type) with
      | None => (w, None)
      | Some result =>
          match completed result with
          | Throw _ => (w, None)
          | Ok true =>
              match primaryEmail result with
              | Throw _ => (w, None)
              | Ok payload =>
                  let token := jwt_sign payload privateKey "RS256" one_hour (now env) in
                  (log (ESign payload) w,
                   Some (reply_cookie "token" token
                           (JObj [("status", JStr "success"); ("user", result)])))
              end
          | Ok false => (w, Some (reply 401 (JObj [("error", result)])))
          end
      end.

End Routes.

(** ** [server.js]: the variant without session tokens

    Its [/register], [/check], [/setup] and [/verify] routes are the ones
    above; its [/login] answers without minting a token. *)
Module Server.
Section Routes.
Context {C : Collaborators}.

Definition login (req : login_body) (env : ambient) : world -> world * response :=
  try_catch
    (user ← findOne (login_email req);
     match user with
     | None =>
         respond (reply 404 (JObj [("error", JStr "Det finns ingen användare med denna epostadress")]))
     | Some user =>
         checkPassword ← call (ECompare (login_password req) (password user))
                              (bcrypt_compare (login_password req) (password user));
         if negb checkPassword then
           respond (reply 401 (JObj [("error", JStr "Fel lösenord och/eller epostadress")]))
         else
           (if enrolled user then
              checkToken ← call (ETotpVerify (twoFactorSecret user) (login_twoFactorToken req))
                                (totp_verify (twoFactorSecret user) (login_twoFactorToken req) (now env));
              if negb checkToken then
                respond (reply 401 (JObj [("error", JStr "Fel tvåstegskod, försök igen.");
                                          ("twoFactorRequired", JBool true)]))
              else mret tt
            else mret tt);;
           mret (reply 200 (JObj [("status", JStr "success")]))
     end)
    (fun message =>
       reply 500 (JObj [("error", JStr "Något gick fel vid inloggningen");
                        ("details", JStr message)])).

End Routes.
End Server.

(** ** The answers of the routes, by name *)

Section Answers.
Context {C : Collaborators}.

Definition unknown_account : response :=
  reply 404 (JObj [("error", JStr "Det finns ingen användare med denna epostadress")]).

Definition invalid_credentials : response :=
  reply 401 (JObj [("error", JStr "Fel lösenord och/eller epostadress")]).

Definition invalid_second_factor : response :=
  reply 401 (JObj [("error", JStr "Fel tvåstegskod, försök igen.");
                   ("twoFactorRequired", JBool true)]).

Definition login_failed (message : string) : response :=
  reply 500 (JObj [("error", JStr "Något gick fel vid inloggningen");
                   ("details", JStr message)]).

Definition session_cookie (u : User) (env : ambient) : response :=
  reply_cookie "token"
    (jwt_sign (Some (JStr (email u))) privateKey "RS256" one_hour (now env))
    (JObj [("status", JStr "success")]).

Definition logged_in : response :=
  reply 200 (JObj [("status", JStr "success")]).

(** The worlds a login passes through. *)
Definition after_find (req : login_body) (w : world) : world :=
  log (EFindOne (login_email req)) w.
Definition after_compare (req : login_body) (u : User) (w : world) : world :=
  log (ECompare (login_password req) (password u)) (after_find req w).
Definition after_totp (req : login_body) (u : User) (w : world) : world :=
  log (ETotpVerify (twoFactorSecret u) (login_twoFactorToken req)) (after_compare req u w).

Definition credentials_required : response :=
  reply 400 (JObj [("error", JStr "Epost och lösenord krävs")]).

Definition setup_invalid_credentials : response :=
  reply 401 (JObj [("error", JStr "Fel lösenord")]).

Definition setup_failed : response :=
  reply 500 (JObj [("error", JStr "Ett fel har inträffat vid konfiguration av tvåstegsinloggning. Kontakta support ()")]).

Definition enrollment (qrCodeImageUrl : string) : response :=
  reply 200 (JObj [("qrCodeImageUrl", JStr qrCodeImageUrl)]).

Definition duplicate_account : response :=
  reply 400 (JObj [("error", JStr "En användare med denna epost finns redan")]).

Definition created (e : field) : response :=
  reply 200 (JObj [("message", JStr ("Användare skapad med epost" +:+ to_string e))]).

Definition verified_ok : response :=
  reply 200 (JObj [("status", JStr "success")]).

Definition verify_rejected : response :=
  reply 400 (JObj [("error", JStr "Fel tvåstegskod, kontrollera så att koden inte gått ut.")]).

Definition verify_failed : response :=
  reply 500 (JObj [("error", JStr "Ett fel har inträffat vid konfiguration av tvåstegsinloggning. Kontakta support ()")]).

Definition token_missing : response :=
  reply 403 (JObj [("error", JStr "Token saknas")]).

Definition token_invalid : response :=
  reply 401 (JObj [("error", JStr "Medskickad token är inte giltig")]).

(** The validity of a token in the words of the data model: the
    signature verifies against the public key, the current time is
    before the expiry, and the algorithm is the configured one. *)
Definition valid_token (t : jwt) (clock : Z) : Prop :=
  jws_verify (j_alg t) publicKey (j_claims t) (j_sig t) = true ∧
  clock / 1000 < c_exp (j_claims t) ∧
  j_alg t = "RS256".

(** Every account is stored under its own email. *)
Definition keyed (w : world) : Prop :=
  ∀ e u, db w !! e = Some u -> email u = e.

(** The identifier type the client is configured with. *)
Definition id_type (req : freja_body) : string :=
  to_string (if negb (truthy (freja_type req)) then Some "ssn" else freja_type req).

Definition provider_rejected (result : json) : response :=
  reply 401 (JObj [("error", result)]).

End Answers.

(** ** A reference instance of the collaborators

    Small executable stand-ins, on which the routes can be run: a hash
    that tags the password, a TOTP engine whose current code is the
    secret spelled backwards, a signature that names its key. *)
Module Reference.

Definition hash (p : string) : string := "$2b$" +:+ p.

Definition compare (pw : field) (h : string) : outcome bool :=
  match pw with
  | None => Throw "data and hash arguments required"
  | Some p => Ok (String.eqb (hash p) h)
  end.

Definition code (secret : string) : string := String.rev secret.

Definition totp (secret : option string) (token : field) (clock : Z) : outcome bool :=
  match secret with
  | None => Throw "secret required"
  | Some s =>
      match token with
      | None => Ok false
      | Some t => Ok (String.eqb t (code s))
      end
  end.

Definition secret_of (len : nat) (rnd : Z) : generated_secret :=
  if Z.even rnd then {| ascii := "even"; base32 := "MV3GK3Q" |}
  else {| ascii := "odd"; base32 := "N5SGI" |}.

Definition url_of (secret label issuer : string) : string :=
  "otpauth://totp/" +:+ label +:+ "?secret=" +:+ secret +:+ "&issuer=" +:+ issuer.

Definition image_of (url : string) : outcome string :=
  Ok ("data:image/png;base64," +:+ url).

Definition sign (alg key : string) (cl : claims) : string :=
  alg +:+ "/" +:+ key.

Definition check_sig (alg key : string) (cl : claims) (sig : string) : bool :=
  String.eqb key "public" && String.eqb sig (sign alg "private" cl).

Definition provider (login id_type : string) : option json :=
  if String.eqb login "198001011234" then
    Some (JObj [("status", JStr "completed");
                ("extra", JObj [("primaryEmail", JStr "eva@example.se")])])
  else if String.eqb login "lars@example.se" then
    Some (JObj [("status", JStr "completed");
                ("extra", JObj [("primaryEmail", JStr "lars@example.se")])])
  else if String.eqb login "199912319999" then
    Some (JObj [("status", JStr "completed")])
  else if String.eqb login "000000000000" then
    Some JNull
  else if String.eqb login "unreachable" then
    None
  else
    Some (JObj [("status", JStr "failed"); ("code", JStr "cancelled_by_user")]).

Definition collaborators : Collaborators := {|
  privateKey := "private";
  publicKey := "public";
  bcrypt_hash := hash;
  bcrypt_compare := compare;
  totp_verify := totp;
  generateSecret := secret_of;
  otpauthURL := url_of;
  toDataURL := image_of;
  jws_sign := sign;
  jws_verify := check_sig;
  authRequest := provider;
|}.

(** The same collaborators with a renderer that fails. *)
Definition no_renderer : Collaborators := {|
  privateKey := "private";
  publicKey := "public";
  bcrypt_hash := hash;
  bcrypt_compare := compare;
  totp_verify := totp;
  generateSecret := secret_of;
  otpauthURL := url_of;
  toDataURL := fun _ => Throw "canvas unavailable";
  jws_sign := sign;
  jws_verify := check_sig;
  authRequest := provider;
|}.

(** Two accounts: [ada] has enrolled a second factor, [bo] has not. *)
Definition ada : User :=
  {| email := "ada@x.com"; password := hash "p1"; twoFactorSecret := Some "MV3GK3Q" |}.
Definition bo : User :=
  {| email := "bo@x.com"; password := hash "p2"; twoFactorSecret := None |}.

Definition w0 : world :=
  {| db := <["ada@x.com" := ada]> (<["bo@x.com" := bo]> ∅); trace := [] |}.

Definition noon : ambient := {| now := 1700000000000; entropy := 7 |}.

#[local] Existing Instance collaborators.

(** Requests of the scenarios. *)

Definition ada_login (token : field) : login_body :=
  {| login_email := Some "ada@x.com"; login_password := Some "p1";
     login_twoFactorToken := token |}.

Definition ada_wrong_password : login_body :=
  {| login_email := Some "ada@x.com"; login_password := Some "guess";
     login_twoFactorToken := Some "Q3KG3VM" |}.

Definition bo_login (pw token : field) : login_body :=
  {| login_email := Some "bo@x.com"; login_password := pw;
     login_twoFactorToken := token |}.

Definition bo_setup (pw : field) : setup_body :=
  {| setup_email := Some "bo@x.com"; setup_password := pw |}.

Definition ada_setup : setup_body :=
  {| setup_email := Some "ada@x.com"; setup_password := Some "p1" |}.

Definition eva_freja : freja_body :=
  {| freja_login := Some "198001011234"; freja_type := None |}.

(** Further eID requests: a second identity, given by email; a login
    the user cancels; one the provider answers with null; one it
    completes without an [extra] object; one whose promise rejects. *)
Definition lars_freja : freja_body :=
  {| freja_login := Some "lars@example.se"; freja_type := Some "email" |}.

Definition cancelled_freja : freja_body :=
  {| freja_login := Some "197505055555"; freja_type := Some "ssn" |}.

Definition null_freja : freja_body :=
  {| freja_login := Some "000000000000"; freja_type := None |}.

Definition bare_freja : freja_body :=
  {| freja_login := Some "199912319999"; freja_type := None |}.

Definition unreachable_freja : freja_body :=
  {| freja_login := Some "unreachable"; freja_type := None |}.

Definition eva_result : json :=
  JObj [("status", JStr "completed");
        ("extra", JObj [("primaryEmail", JStr "eva@example.se")])].

Definition lars_result : json :=
  JObj [("status", JStr "completed");
        ("extra", JObj [("primaryEmail", JStr "lars@example.se")])].

Definition cancelled_result : json :=
  JObj [("status", JStr "failed"); ("code", JStr "cancelled_by_user")].

Definition empty_world : world := {| db := ∅; trace := [] |}.

Definition cy_register (pw : field) : register_body :=
  {| reg_email := Some "cy@x.com"; reg_password := pw |}.

(** The token a login at noon sets for ada. *)
Definition ada_token : jwt :=
  jwt_sign (Some (JStr "ada@x.com")) privateKey "RS256" one_hour (now noon).

(** The same claims under a signature made with another key. *)
Definition forged_token : jwt :=
  {| j_alg := "RS256"; j_claims := j_claims ada_token;
     j_sig := jws_sign "RS256" "other" (j_claims ada_token) |}.

End Reference.

(** ** Properties *)

Section Properties.
Context {C : Collaborators}.

(** *** The call log only grows *)

Lemma made_log (w : world) (e : event) : made w (log e w) = [e].
Proof.
  unfold made, log; simpl.
  rewrite drop_app_length. reflexivity.
Qed.

Lemma made_app (w w' : world) (l : list event) :
  trace w' = (trace w ++ l)%list -> made w w' = l.
Proof.
  intros E. unfold made. rewrite E. apply drop_app_length.
Qed.

(** *** The store is keyed by email *)

Lemma keyed_stored (w : world) (e : field) (u : User) :
  keyed w -> stored w e = Some u -> e = Some (email u).
Proof.
  intros K E. destruct e as [e|]; [|discriminate].
  unfold stored in E; simpl in E. by rewrite (K e u E).
Qed.

Lemma keyed_insert (w : world) (u : User) (l : list event) :
  keyed w -> keyed {| db := <[email u := u]> (db w); trace := l |}.
Proof.
  intros K e u'; simpl. rewrite lookup_insert.
  case_decide as D; [intros [= <-]; done | apply K].
Qed.

(** *** [/login], case by case *)

Ltac run :=
  unfold login, Server.login, try_catch, findOne, call, respond, save,
    mbind, M_bind, mret, M_ret; simpl.

Lemma login_unknown (req : login_body) (env : ambient) (w : world) :
  stored w (login_email req) = None ->
  login req env w = (after_find req w, unknown_account) /\
  Server.login req env w = (after_find req w, unknown_account).
Proof.
  intros E. run. rewrite E. split; reflexivity.
Qed.

Lemma login_wrong_password (req : login_body) (env : ambient) (w : world) (u : User) :
  stored w (login_email req) = Some u ->
  bcrypt_compare (login_password req) (password u) = Ok false ->
  login req env w = (after_compare req u w, invalid_credentials) /\
  Server.login req env w = (after_compare req u w, invalid_credentials).
Proof.
  intros E P. run. rewrite E, P. split; reflexivity.
Qed.

Lemma login_compare_throws (req : login_body) (env : ambient) (w : world) (u : User) msg :
  stored w (login_email req) = Some u ->
  bcrypt_compare (login_password req) (password u) = Throw msg ->
  login req env w = (after_compare req u w, login_failed msg) /\
  Server.login req env w = (after_compare req u w, login_failed msg).
Proof.
  intros E P. run. rewrite E, P. split; reflexivity.
Qed.

Lemma login_not_enrolled (req : login_body) (env : ambient) (w : world) (u : User) :
  stored w (login_email req) = Some u ->
  bcrypt_compare (login_password req) (password u) = Ok true ->
  enrolled u = false ->
  login req env w =
    (log (ESign (Some (JStr (email u)))) (after_compare req u w), session_cookie u env) /\
  Server.login req env w = (after_compare req u w, logged_in).
Proof.
  intros E P S. run. rewrite E, P. simpl. rewrite S. split; reflexivity.
Qed.

Lemma login_totp_rejected (req : login_body) (env : ambient) (w : world) (u : User) :
  stored w (login_email req) = Some u ->
  bcrypt_compare (login_password req) (password u) = Ok true ->
  enrolled u = true ->
  totp_verify (twoFactorSecret u) (login_twoFactorToken req) (now env) = Ok false ->
  login req env w = (after_totp req u w, invalid_second_factor) /\
  Server.login req env w = (after_totp req u w, invalid_second_factor).
Proof.
  intros E P S T. run. rewrite E, P. simpl. rewrite S, T. split; reflexivity.
Qed.

Lemma login_totp_throws (req : login_body) (env : ambient) (w : world) (u : User) msg :
  stored w (login_email req) = Some u ->
  bcrypt_compare (login_password req) (password u) = Ok true ->
  enrolled u = true ->
  totp_verify (twoFactorSecret u) (login_twoFactorToken req) (now env) = Throw msg ->
  login req env w = (after_totp req u w, login_failed msg) /\
  Server.login req env w = (after_totp req u w, login_failed msg).
Proof.
  intros E P S T. run. rewrite E, P. simpl. rewrite S, T. split; reflexivity.
Qed.

Lemma login_totp_accepted (req : login_body) (env : ambient) (w : world) (u : User) :
  stored w (login_email req) = Some u ->
  bcrypt_compare (login_password req) (password u) = Ok true ->
  enrolled u = true ->
  totp_verify (twoFactorSecret u) (login_twoFactorToken req) (now env) = Ok true ->
  login req env w =
    (log (ESign (Some (JStr (email u)))) (after_totp req u w), session_cookie u env) /\
  Server.login req env w = (after_totp req u w, logged_in).
Proof.
  intros E P S T. run. rewrite E, P. simpl. rewrite S, T. split; reflexivity.
Qed.

Ltac calls :=
  repeat (erewrite made_app; [| unfold after_totp, after_compare, after_find, log; simpl;
                                 rewrite <- ?app_assoc; simpl; reflexivity ]).

(** Membership of a call in an explicit log, settled by cases. *)
Ltac in_log X :=
  repeat (apply elem_of_cons in X as [X|X]; [try discriminate X|]);
  try (apply elem_of_nil in X; contradiction).

(** Whatever the request, the log of a login starts with the store
    lookup; a password comparison, if any, comes second; a TOTP
    verification, if any, comes third and only for an enrolled account
    whose password was accepted. *)
Lemma login_totp_only_after_password (req : login_body) (env : ambient) (w : world)
    (secret : option string) (token : field) :
  ETotpVerify secret token ∈ made w (login req env w).1 ∨
  ETotpVerify secret token ∈ made w (Server.login req env w).1 ->
  ∃ u rest rest',
    stored w (login_email req) = Some u ∧
    bcrypt_compare (login_password req) (password u) = Ok true ∧
    enrolled u = true ∧
    secret = twoFactorSecret u ∧ token = login_twoFactorToken req ∧
    made w (login req env w).1 =
      EFindOne (login_email req) :: ECompare (login_password req) (password u)
        :: ETotpVerify secret token :: rest ∧
    made w (Server.login req env w).1 =
      EFindOne (login_email req) :: ECompare (login_password req) (password u)
        :: ETotpVerify secret token :: rest'.
Proof.
  destruct (stored w (login_email req)) as [u|] eqn:E.
  2:{ destruct (login_unknown req env w E) as [-> ->]; simpl. calls.
      intros [X|X]; in_log X. }
  destruct (bcrypt_compare (login_password req) (password u)) as [[|]|msg] eqn:P.
  3:{ destruct (login_compare_throws req env w u msg E P) as [-> ->]; simpl. calls.
      intros [X|X]; in_log X. }
  2:{ destruct (login_wrong_password req env w u E P) as [-> ->]; simpl. calls.
      intros [X|X]; in_log X. }
  destruct (enrolled u) eqn:S.
  2:{ destruct (login_not_enrolled req env w u E P S) as [-> ->]; simpl. calls.
      intros [X|X]; in_log X. }
  destruct (totp_verify (twoFactorSecret u) (login_twoFactorToken req) (now env))
    as [[|]|msg] eqn:T.
  - destruct (login_totp_accepted req env w u E P S T) as [-> ->]; simpl. calls.
    intros X. assert (secret = twoFactorSecret u ∧ token = login_twoFactorToken req)
      as [-> ->] by (destruct X as [X|X]; in_log X; by injection X).
    exists u; eauto 12.
  - destruct (login_totp_rejected req env w u E P S T) as [-> ->]; simpl. calls.
    intros X. assert (secret = twoFactorSecret u ∧ token = login_twoFactorToken req)
      as [-> ->] by (destruct X as [X|X]; in_log X; by injection X).
    exists u; eauto 12.
  - destruct (login_totp_throws req env w u msg E P S T) as [-> ->]; simpl. calls.
    intros X. assert (secret = twoFactorSecret u ∧ token = login_twoFactorToken req)
      as [-> ->] by (destruct X as [X|X]; in_log X; by injection X).
    exists u; eauto 12.
Qed.

(** C1. Login fails with UnknownAccount when no account matches the
    email; otherwise with InvalidCredentials when the password does not
    verify, and then the answer is the same fixed response whatever the
    account's enrolment and whatever code was sent, and no call but the
    lookup and the comparison was made; a TOTP code is evaluated only
    after the lookup found an account, the comparison accepted the
    password, and for an account with a secret. *)
Theorem login_checks_in_order :
  (∀ req env w,
     stored w (login_email req) = None ->
     (login req env w).2 = unknown_account ∧
     (Server.login req env w).2 = unknown_account) ∧
  (∀ req env w u,
     stored w (login_email req) = Some u ->
     bcrypt_compare (login_password req) (password u) = Ok false ->
     (login req env w).2 = invalid_credentials ∧
     (Server.login req env w).2 = invalid_credentials ∧
     made w (login req env w).1 =
       [EFindOne (login_email req); ECompare (login_password req) (password u)] ∧
     made w (Server.login req env w).1 =
       [EFindOne (login_email req); ECompare (login_password req) (password u)]) ∧
  (∀ req env w secret token,
     ETotpVerify secret token ∈ made w (login req env w).1 ∨
     ETotpVerify secret token ∈ made w (Server.login req env w).1 ->
     ∃ u rest rest',
       stored w (login_email req) = Some u ∧
       bcrypt_compare (login_password req) (password u) = Ok true ∧
       enrolled u = true ∧
       secret = twoFactorSecret u ∧ token = login_twoFactorToken req ∧
       made w (login req env w).1 =
         EFindOne (login_email req) :: ECompare (login_password req) (password u)
           :: ETotpVerify secret token :: rest ∧
       made w (Server.login req env w).1 =
         EFindOne (login_email req) :: ECompare (login_password req) (password u)
           :: ETotpVerify secret token :: rest').
Proof.
  split; [| split].
  - intros req env w E. destruct (login_unknown req env w E) as [-> ->]. done.
  - intros req env w u E P.
    destruct (login_wrong_password req env w u E P) as [-> ->]; simpl. calls. done.
  - intros req env w secret token. apply login_totp_only_after_password.
Qed.

(** C2 (amended). For an enrolled account whose password was accepted,
    a code that the TOTP engine rejects at the verification time makes
    Login fail with InvalidSecondFactor: status 401 with
    [twoFactorRequired: true], no cookie.  The response is this one
    fixed value, whether the code was missing or wrong. *)
Theorem login_second_factor_rejected (req : login_body) (env : ambient) (w : world)
    (u : User) :
  stored w (login_email req) = Some u ->
  bcrypt_compare (login_password req) (password u) = Ok true ->
  enrolled u = true ->
  totp_verify (twoFactorSecret u) (login_twoFactorToken req) (now env) = Ok false ->
  (login req env w).2 = invalid_second_factor ∧
  (Server.login req env w).2 = invalid_second_factor ∧
  status invalid_second_factor = 401 ∧
  get (body invalid_second_factor) "twoFactorRequired" = Some (JBool true) ∧
  cookies invalid_second_factor = [].
Proof.
  intros E P S T.
  destruct (login_totp_rejected req env w u E P S T) as [-> ->]. done.
Qed.

(** C3. For an account without a second factor, Login succeeds exactly
    when the password verifies, and the TOTP engine is not called,
    whatever [twoFactorToken] holds. *)
Theorem login_without_second_factor (req : login_body) (env : ambient) (w : world)
    (u : User) :
  stored w (login_email req) = Some u ->
  enrolled u = false ->
  ((login req env w).2 = session_cookie u env
     ↔ bcrypt_compare (login_password req) (password u) = Ok true) ∧
  (status (login req env w).2 = 200
     ↔ bcrypt_compare (login_password req) (password u) = Ok true) ∧
  ((Server.login req env w).2 = logged_in
     ↔ bcrypt_compare (login_password req) (password u) = Ok true) ∧
  (status (Server.login req env w).2 = 200
     ↔ bcrypt_compare (login_password req) (password u) = Ok true) ∧
  (∀ secret token, ETotpVerify secret token ∉ made w (login req env w).1) ∧
  (∀ secret token, ETotpVerify secret token ∉ made w (Server.login req env w).1).
Proof.
  intros E S.
  destruct (bcrypt_compare (login_password req) (password u)) as [[|]|msg] eqn:P.
  - destruct (login_not_enrolled req env w u E P S) as [-> ->]; simpl. calls.
    repeat split; try done; intros secret token X; in_log X.
  - destruct (login_wrong_password req env w u E P) as [-> ->]; simpl. calls.
    repeat split; try done; intros secret token X; in_log X.
  - destruct (login_compare_throws req env w u msg E P) as [-> ->]; simpl. calls.
    repeat split; try done; intros secret token X; in_log X.
Qed.

(** *** [/setup] *)

Ltac run_setup :=
  unfold setup, try_catch, findOne, call, respond, save,
    mbind, M_bind, mret, M_ret; simpl.

Lemma setup_missing_field (req : setup_body) (env : ambient) (w : world) :
  truthy (setup_email req) && truthy (setup_password req) = false ->
  setup req env w = (w, credentials_required).
Proof.
  intros V. unfold setup.
  destruct (truthy (setup_email req)), (truthy (setup_password req)); done.
Qed.

Lemma setup_wrong_password (req : setup_body) (env : ambient) (w : world) (u : User) :
  truthy (setup_email req) = true ->
  truthy (setup_password req) = true ->
  stored w (setup_email req) = Some u ->
  bcrypt_compare (setup_password req) (password u) = Ok false ->
  setup req env w =
    (log (ECompare (setup_password req) (password u)) (log (EFindOne (setup_email req)) w),
     setup_invalid_credentials).
Proof.
  intros Ve Vp E P. run_setup. rewrite Ve, Vp; simpl. rewrite E, P. reflexivity.
Qed.

(** C4 (amended). SetupSecondFactor for an existing account with a
    password that does not verify leaves the store as it was; it fails
    with InvalidCredentials when both fields are non-empty, and with the
    validation error when the email or the password is empty or
    missing. *)
Theorem setup_wrong_password_keeps_state (req : setup_body) (env : ambient)
    (w : world) (u : User) :
  stored w (setup_email req) = Some u ->
  bcrypt_compare (setup_password req) (password u) = Ok false ->
  db (setup req env w).1 = db w ∧
  (∀ e, stored (setup req env w).1 e = stored w e) ∧
  (truthy (setup_email req) = true -> truthy (setup_password req) = true ->
   (setup req env w).2 = setup_invalid_credentials) ∧
  (truthy (setup_email req) && truthy (setup_password req) = false ->
   (setup req env w).2 = credentials_required).
Proof.
  intros E P.
  destruct (truthy (setup_email req) && truthy (setup_password req)) eqn:V.
  - apply andb_prop in V as [Ve Vp].
    rewrite (setup_wrong_password req env w u Ve Vp E P); simpl.
    repeat split; try done.
  - rewrite (setup_missing_field req env w V); simpl.
    repeat split; try done.
    intros Ve Vp. rewrite Ve, Vp in V. discriminate.
Qed.

(** C7 (amended). SetupSecondFactor with a correct password asks for a
    secret of the fixed length 20, stores its base32 form on the account
    in place of any prior secret (nothing else of the store changes),
    derives the enrollment URI from the secret, the fixed label
    "Bonnier" and the issuer "Exjobb", and answers with the rendered
    image when the renderer delivers one.  The label is the same for
    every account. *)
Theorem setup_enrolls (req : setup_body) (env : ambient) (w : world) (u : User) :
  truthy (setup_email req) = true ->
  truthy (setup_password req) = true ->
  stored w (setup_email req) = Some u ->
  bcrypt_compare (setup_password req) (password u) = Ok true ->
  ∃ secret u' url,
    secret = generateSecret 20 (entropy env) ∧
    u' = {| email := email u; password := password u;
            twoFactorSecret := Some (base32 secret) |} ∧
    url = otpauthURL (ascii secret) "Bonnier" "Exjobb" ∧
    db (setup req env w).1 = <[email u := u']> (db w) ∧
    (setup_email req = Some (email u) ->
     stored (setup req env w).1 (setup_email req) = Some u') ∧
    (∀ e, e ≠ email u -> db (setup req env w).1 !! e = db w !! e) ∧
    made w (setup req env w).1 =
      [EFindOne (setup_email req); ECompare (setup_password req) (password u);
       EGenerateSecret 20; ESave u';
       EOtpauthURL (ascii secret) "Bonnier" "Exjobb"; EToDataURL url] ∧
    (∀ qrCodeImageUrl, toDataURL url = Ok qrCodeImageUrl ->
       (setup req env w).2 = enrollment qrCodeImageUrl).
Proof.
  intros Ve Vp E P.
  eexists _, _, _. split; [reflexivity|]. split; [reflexivity|]. split; [reflexivity|].
  run_setup. rewrite Ve, Vp; simpl. rewrite E, P; simpl.
  destruct (toDataURL _) as [img|msg] eqn:Q; simpl.
  - split; [reflexivity|]. split; [|split; [|split]].
    + intros ->. unfold stored; simpl. apply lookup_insert_eq.
    + intros e Ne. by apply lookup_insert_ne.
    + apply made_app. simpl. rewrite <- ?app_assoc. reflexivity.
    + intros ? [= <-]. reflexivity.
  - split; [reflexivity|]. split; [|split; [|split]].
    + intros ->. unfold stored; simpl. apply lookup_insert_eq.
    + intros e Ne. by apply lookup_insert_ne.
    + apply made_app. simpl. rewrite <- ?app_assoc. reflexivity.
    + intros ? [=].
Qed.

(** *** [/register] *)

Ltac run_register :=
  unfold register, try_catch, findOne, call, respond, save,
    mbind, M_bind, mret, M_ret; simpl.

Lemma register_missing_field (req : register_body) (w : world) :
  truthy (reg_email req) && truthy (reg_password req) = false ->
  register req w = (w, credentials_required).
Proof.
  intros V. unfold register.
  destruct (truthy (reg_email req)), (truthy (reg_password req)); done.
Qed.

Lemma register_existing (req : register_body) (w : world) (u : User) :
  truthy (reg_email req) = true ->
  truthy (reg_password req) = true ->
  stored w (reg_email req) = Some u ->
  register req w = (log (EFindOne (reg_email req)) w, duplicate_account).
Proof.
  intros Ve Vp E. run_register. rewrite Ve, Vp; simpl. rewrite E. reflexivity.
Qed.

Lemma register_fresh (req : register_body) (w : world) :
  truthy (reg_email req) = true ->
  truthy (reg_password req) = true ->
  stored w (reg_email req) = None ->
  register req w =
    ({| db := <[to_string (reg_email req) := new_User (reg_email req) (reg_password req)]> (db w);
        trace := (trace w ++ [EFindOne (reg_email req)])
                   ++ [ESave (new_User (reg_email req) (reg_password req))] |},
     created (reg_email req)).
Proof.
  intros Ve Vp E. run_register. rewrite Ve, Vp; simpl. rewrite E. reflexivity.
Qed.

(** A registration answers 200 only for a fresh email with both fields
    present, and then the account is stored under that email. *)
Lemma register_succeeded (req : register_body) (w : world) :
  status (register req w).2 = 200 ->
  truthy (reg_email req) = true ∧ truthy (reg_password req) = true ∧
  stored (register req w).1 (reg_email req)
    = Some (new_User (reg_email req) (reg_password req)).
Proof.
  intros S.
  destruct (truthy (reg_email req) && truthy (reg_password req)) eqn:V.
  2:{ rewrite (register_missing_field req w V) in S. discriminate. }
  apply andb_prop in V as [Ve Vp].
  destruct (stored w (reg_email req)) as [u|] eqn:E.
  { rewrite (register_existing req w u Ve Vp E) in S. discriminate. }
  rewrite (register_fresh req w Ve Vp E); simpl.
  split; [done|]. split; [done|].
  destruct (reg_email req) as [e|]; [|discriminate].
  unfold stored; simpl. apply lookup_insert_eq.
Qed.

(** C8. Registration is idempotent-rejecting: once a registration of an
    email has succeeded, a second registration of that email fails with
    DuplicateAccount for every password Register admits (a non-empty
    one), whatever the first password was, and leaves the existing
    account as it was.  An empty or missing password lies outside
    Register's input constraints; the route answers it with the
    validation error, also without touching the store. *)
Theorem register_twice_rejected (e p1 p2 : field) (w : world) :
  status (register {| reg_email := e; reg_password := p1 |} w).2 = 200 ->
  let w1 := (register {| reg_email := e; reg_password := p1 |} w).1 in
  let second := register {| reg_email := e; reg_password := p2 |} w1 in
  db second.1 = db w1 ∧
  stored second.1 e = Some (new_User e p1) ∧
  status second.2 = 400 ∧
  (truthy p2 = true -> second.2 = duplicate_account) ∧
  (truthy p2 = false -> second.2 = credentials_required).
Proof.
  intros S w1 second.
  destruct (register_succeeded _ w S) as (Ve & _ & E); simpl in Ve, E.
  fold w1 in E. subst second.
  destruct (truthy p2) eqn:Vp.
  - rewrite (register_existing {| reg_email := e; reg_password := p2 |} w1 _ Ve Vp E); simpl.
    repeat split; try done.
  - rewrite (register_missing_field {| reg_email := e; reg_password := p2 |} w1); simpl.
    + repeat split; try done.
    + rewrite Ve, Vp. reflexivity.
Qed.

(** *** [/verify] *)

(** For an existing account the answer of [/verify] is decided by the
    TOTP engine alone, called with whatever the account holds as its
    secret, also when it holds none: the route has no guard of its own. *)
Lemma verify_decided_by_engine (req : verify_body) (env : ambient) (w : world) (u : User) :
  truthy (verify_email req) = true ->
  truthy (verify_token req) = true ->
  stored w (verify_email req) = Some u ->
  (verify req env w).1 =
    log (ETotpVerify (twoFactorSecret u) (verify_token req))
      (log (EFindOne (verify_email req)) w) ∧
  (verify req env w).2 =
    match totp_verify (twoFactorSecret u) (verify_token req) (now env) with
    | Ok true => verified_ok
    | Ok false => verify_rejected
    | Throw _ => verify_failed
    end.
Proof.
  intros Ve Vt E.
  unfold verify, try_catch, findOne, call, respond, mbind, M_bind, mret, M_ret; simpl.
  rewrite Ve, Vt; simpl. rewrite E.
  destruct (totp_verify _ _ _) as [[|]|msg]; split; reflexivity.
Qed.

(** *** Session tokens *)

Lemma pinned (alg : string) :
  existsb (String.eqb alg) ["RS256"] = true ↔ alg = "RS256".
Proof.
  simpl. rewrite orb_false_r. apply String.eqb_eq.
Qed.

Lemma authenticateToken_compact (t : jwt) (clock : Z) :
  (valid_token t clock ∧
   authenticateToken (Compact t) clock = Forwarded (c_email (j_claims t))) ∨
  (¬ valid_token t clock ∧
   authenticateToken (Compact t) clock = Answered token_invalid).
Proof.
  unfold authenticateToken, jwt_verify, valid_token. cbn [presented negb].
  destruct (existsb (String.eqb (j_alg t)) ["RS256"]) eqn:A; cbn [negb].
  2:{ right. split; [|reflexivity]. intros (_ & _ & X).
      apply pinned in X. congruence. }
  apply pinned in A.
  destruct (jws_verify (j_alg t) publicKey (j_claims t) (j_sig t)) eqn:V; cbn [negb].
  2:{ right. split; [|reflexivity]. intros (X & _). discriminate. }
  destruct (Z.geb_spec (clock / 1000) (c_exp (j_claims t))) as [G|L].
  - right. split; [|reflexivity]. intros (_ & X & _). lia.
  - left. split; [|reflexivity]. done.
Qed.

(** C5. Verification answers TokenMissing (403) when no token is
    presented, and TokenInvalid (401) for a presented token that is not
    valid; it lets the request through, as the token's subject, exactly
    for a token whose signature verifies against the public key, whose
    expiry lies after the current time and whose algorithm is RS256. *)
Theorem authenticateToken_valid_iff (token : cookie) (clock : Z) :
  (presented token = false ->
   authenticateToken token clock = Answered token_missing) ∧
  (presented token = true ->
   (∀ t, token = Compact t -> ¬ valid_token t clock) ->
   authenticateToken token clock = Answered token_invalid) ∧
  (∀ user,
     authenticateToken token clock = Forwarded user
     ↔ ∃ t, token = Compact t ∧ valid_token t clock ∧ user = c_email (j_claims t)).
Proof.
  destruct token as [|raw|t].
  - repeat split; try done. intros (t & ? & _). discriminate.
  - unfold authenticateToken; simpl.
    destruct (String.eqb raw ""); simpl; repeat split; try done;
      intros (t & ? & _); discriminate.
  - destruct (authenticateToken_compact t clock) as [[V ->]|[V ->]].
    + split; [done|]. split.
      * intros _ N. destruct (N t eq_refl V).
      * intros user. split.
        -- intros [= <-]. eauto.
        -- intros (t' & [= <-] & _ & ->). reflexivity.
    + split; [done|]. split; [done|].
      intros user. split; [done|].
      intros (t' & [= <-] & V' & _). destruct (V V').
Qed.

(** C9. A token signed for a subject with the service's key, RS256 and
    the one-hour lifetime expires one hour after its issue time, is
    verified as that subject at the moment of issue and at any time
    before the expiry, and is answered TokenInvalid from the expiry on;
    the key pair is taken to be sound. *)
Theorem issued_token_round_trip (subject : option json) (issued clock : Z) :
  (∀ cl, jws_verify "RS256" publicKey cl (jws_sign "RS256" privateKey cl) = true) ->
  let token := jwt_sign subject privateKey "RS256" one_hour issued in
  c_iat (j_claims token) = issued / 1000 ∧
  c_exp (j_claims token) = c_iat (j_claims token) + 3600 ∧
  authenticateToken (Compact token) issued = Forwarded subject ∧
  (clock / 1000 < c_exp (j_claims token) ->
   authenticateToken (Compact token) clock = Forwarded subject) ∧
  (c_exp (j_claims token) <= clock / 1000 ->
   authenticateToken (Compact token) clock = Answered token_invalid).
Proof.
  intros K token.
  assert (∀ c, c / 1000 < c_exp (j_claims token) ->
               authenticateToken (Compact token) c = Forwarded subject) as Live.
  { intros c L.
    destruct (authenticateToken_compact token c) as [[_ ->]|[V _]]; [reflexivity|].
    destruct V. repeat split; try done; apply K. }
  split; [reflexivity|]. split; [reflexivity|]. split; [|split].
  - apply Live. simpl. unfold one_hour. lia.
  - apply Live.
  - intros L.
    destruct (authenticateToken_compact token clock) as [[(_ & V & _) _]|[_ ->]];
      [lia | reflexivity].
Qed.

(** The token a successful login sets is the one signed for the
    account's email at the time of the request. *)
Lemma session_cookie_token (u : User) (env : ambient) :
  cookies (session_cookie u env) =
    [("token", jwt_sign (Some (JStr (email u))) privateKey "RS256" one_hour (now env))].
Proof. reflexivity. Qed.

(** *** [/freja] *)

Lemma freja_run (req : freja_body) (env : ambient) (w : world) :
  truthy (freja_login req) = true ->
  freja req env w =
    let w1 := log (EAuthRequest (to_string (freja_login req)) (id_type req)) w in
    match authRequest (to_string (freja_login req)) (id_type req) with
    | None => (w1, None)
    | Some result =>
        match completed result with
        | Throw _ => (w1, None)
        | Ok true =>
            match primaryEmail result with
            | Throw _ => (w1, None)
            | Ok payload =>
                (log (ESign payload) w1,
                 Some (reply_cookie "token"
                         (jwt_sign payload privateKey "RS256" one_hour (now env))
                         (JObj [("status", JStr "success"); ("user", result)])))
            end
        | Ok false => (w1, Some (provider_rejected result))
        end
    end.
Proof.
  intros V. unfold freja, id_type. rewrite V. reflexivity.
Qed.

(** C6. When the provider's result is completed, FederatedLogin sets a
    token signed for the email the provider claims, having called only
    the provider and the signer and leaving the store as it was; for a
    result with any other status it answers ProviderRejected with the
    provider's result as payload and sets no token.  A result whose
    status cannot be read (null) gets no response at all, and so no
    token either. *)
Theorem freja_login_by_provider (req : freja_body) (env : ambient) (w : world)
    (result : json) :
  truthy (freja_login req) = true ->
  authRequest (to_string (freja_login req)) (id_type req) = Some result ->
  (completed result = Ok true ->
   ∀ claimed, primaryEmail result = Ok claimed ->
     ∃ token,
       (freja req env w).2 =
         Some (reply_cookie "token" token
                 (JObj [("status", JStr "success"); ("user", result)])) ∧
       token = jwt_sign claimed privateKey "RS256" one_hour (now env) ∧
       c_email (j_claims token) = claimed ∧
       db (freja req env w).1 = db w ∧
       made w (freja req env w).1 =
         [EAuthRequest (to_string (freja_login req)) (id_type req); ESign claimed]) ∧
  (completed result = Ok false ->
   (freja req env w).2 = Some (provider_rejected result) ∧
   cookies (provider_rejected result) = [] ∧
   db (freja req env w).1 = db w ∧
   made w (freja req env w).1 =
     [EAuthRequest (to_string (freja_login req)) (id_type req)]) ∧
  (∀ msg, completed result = Throw msg ->
   (freja req env w).2 = None ∧
   db (freja req env w).1 = db w ∧
   made w (freja req env w).1 =
     [EAuthRequest (to_string (freja_login req)) (id_type req)]).
Proof.
  intros V A. rewrite (freja_run req env w V). cbv zeta. rewrite A.
  split; [|split].
  - intros Cd claimed P. rewrite Cd, P; simpl.
    eexists. split; [reflexivity|]. split; [reflexivity|]. split; [reflexivity|].
    split; [reflexivity|].
    apply made_app. simpl. rewrite <- ?app_assoc. reflexivity.
  - intros Cd. rewrite Cd; simpl.
    repeat split. apply made_log.
  - intros msg Cd. rewrite Cd; simpl.
    repeat split. apply made_log.
Qed.

(** *** The routes keep the store keyed by email *)

Lemma register_keyed (req : register_body) (w : world) :
  keyed w -> keyed (register req w).1.
Proof.
  intros K.
  destruct (truthy (reg_email req) && truthy (reg_password req)) eqn:V.
  2:{ by rewrite (register_missing_field req w V). }
  apply andb_prop in V as [Ve Vp].
  destruct (stored w (reg_email req)) as [u|] eqn:E.
  { by rewrite (register_existing req w u Ve Vp E). }
  rewrite (register_fresh req w Ve Vp E); simpl.
  apply (keyed_insert w (new_User (reg_email req) (reg_password req))), K.
Qed.

Lemma setup_keyed (req : setup_body) (env : ambient) (w : world) :
  keyed w -> keyed (setup req env w).1.
Proof.
  intros K. run_setup.
  destruct (truthy (setup_email req)), (truthy (setup_password req)); simpl; try done.
  destruct (stored w (setup_email req)) as [u|]; [|done].
  destruct (bcrypt_compare _ _) as [[|]|msg]; simpl; try done.
  destruct (toDataURL _) as [img|msg]; simpl;
    apply (keyed_insert w (set_twoFactorSecret u _)), K.
Qed.

(** *** Which routes write *)

Lemma login_db (req : login_body) (env : ambient) (w : world) :
  db (login req env w).1 = db w ∧ db (Server.login req env w).1 = db w.
Proof.
  run. destruct (stored w (login_email req)) as [u|]; simpl; [|done].
  destruct (bcrypt_compare _ _) as [[|]|msg]; simpl; try done.
  destruct (enrolled u); simpl; [|done].
  destruct (totp_verify _ _ _) as [[|]|msg]; done.
Qed.

Lemma check_db (req : check_body) (w : world) : db (check req w).1 = db w.
Proof.
  unfold check, try_catch, findOne, respond, mbind, M_bind, mret, M_ret; simpl.
  destruct (stored w (check_email req)); done.
Qed.

Lemma verify_db (req : verify_body) (env : ambient) (w : world) :
  db (verify req env w).1 = db w.
Proof.
  unfold verify, try_catch, findOne, call, respond, mbind, M_bind, mret, M_ret; simpl.
  destruct (truthy (verify_email req)), (truthy (verify_token req)); simpl; try done.
  destruct (stored w (verify_email req)); simpl; [|done].
  destruct (totp_verify _ _ _) as [[|]|msg]; done.
Qed.

Lemma freja_db (req : freja_body) (env : ambient) (w : world) :
  db (freja req env w).1 = db w.
Proof.
  destruct (truthy (freja_login req)) eqn:V.
  2:{ unfold freja. by rewrite V. }
  rewrite (freja_run req env w V). cbv zeta.
  destruct (authRequest _ _) as [result|]; [|done].
  destruct (completed result) as [[|]|msg]; try done.
  destruct (primaryEmail result); done.
Qed.

(** X2. The routes that only look accounts up leave the store as it
    was, on every path: both logins, [/check], [/verify] and [/freja]. *)
Theorem lookups_leave_store (l : login_body) (c : check_body) (v : verify_body)
    (f : freja_body) (env : ambient) (w : world) :
  db (login l env w).1 = db w ∧
  db (Server.login l env w).1 = db w ∧
  db (check c w).1 = db w ∧
  db (verify v env w).1 = db w ∧
  db (freja f env w).1 = db w.
Proof.
  destruct (login_db l env w) as [L S].
  split; [exact L|]. split; [exact S|].
  split; [apply check_db|]. split; [apply verify_db | apply freja_db].
Qed.

(** *** When a login sets its cookie *)

(** X1. A login sets the cookie [token] exactly when the lookup found
    an account, bcrypt accepted the password and, for an enrolled
    account, the TOTP engine accepted the code; the token is then the
    one signed for the stored email at the time of the request.  On
    every other path no cookie is set, and the login of [server.js]
    sets none at all. *)
Theorem login_cookie_needs_all_factors (req : login_body) (env : ambient) (w : world) :
  (∀ token,
     cookies (login req env w).2 = [("token", token)]
     ↔ ∃ u, stored w (login_email req) = Some u ∧
            bcrypt_compare (login_password req) (password u) = Ok true ∧
            (enrolled u = true ->
             totp_verify (twoFactorSecret u) (login_twoFactorToken req) (now env) = Ok true) ∧
            token = jwt_sign (Some (JStr (email u))) privateKey "RS256" one_hour (now env)) ∧
  (cookies (login req env w).2 = [] ∨
   ∃ token, cookies (login req env w).2 = [("token", token)]) ∧
  cookies (Server.login req env w).2 = [].
Proof.
  destruct (stored w (login_email req)) as [u|] eqn:E.
  2:{ destruct (login_unknown req env w E) as [-> ->]; simpl.
      split; [|split; [by left | done]].
      intros token. split; [done|]. intros (u & ? & _). discriminate. }
  destruct (bcrypt_compare (login_password req) (password u)) as [[|]|msg] eqn:P.
  3:{ destruct (login_compare_throws req env w u msg E P) as [-> ->]; simpl.
      split; [|split; [by left | done]].
      intros token. split; [done|]. intros (u' & [= <-] & P' & _). congruence. }
  2:{ destruct (login_wrong_password req env w u E P) as [-> ->]; simpl.
      split; [|split; [by left | done]].
      intros token. split; [done|]. intros (u' & [= <-] & P' & _). congruence. }
  destruct (enrolled u) eqn:S.
  2:{ destruct (login_not_enrolled req env w u E P S) as [-> ->]; simpl.
      split; [|split; [right; eauto | done]].
      intros token. split.
      - intros [= <-]. exists u. repeat split; try done. congruence.
      - intros (u' & [= <-] & _ & _ & ->). reflexivity. }
  destruct (totp_verify (twoFactorSecret u) (login_twoFactorToken req) (now env))
    as [[|]|msg] eqn:T.
  - destruct (login_totp_accepted req env w u E P S T) as [-> ->]; simpl.
    split; [|split; [right; eauto | done]].
    intros token. split.
    + intros [= <-]. exists u. repeat split; try done.
    + intros (u' & [= <-] & _ & _ & ->). reflexivity.
  - destruct (login_totp_rejected req env w u E P S T) as [-> ->]; simpl.
    split; [|split; [by left | done]].
    intros token. split; [done|].
    intros (u' & [= <-] & _ & T' & _). rewrite T in T'. specialize (T' S). discriminate.
  - destruct (login_totp_throws req env w u msg E P S T) as [-> ->]; simpl.
    split; [|split; [by left | done]].
    intros token. split; [done|].
    intros (u' & [= <-] & _ & T' & _). rewrite T in T'. specialize (T' S). discriminate.
Qed.

(** X3. The two versions of [/login] decide alike: same status and
    same body on every request; they differ only on success, where the
    full application also signs a token and sets it as a cookie. *)
Theorem login_variants_agree (req : login_body) (env : ambient) (w : world) :
  status (login req env w).2 = status (Server.login req env w).2 ∧
  body (login req env w).2 = body (Server.login req env w).2 ∧
  (status (login req env w).2 ≠ 200 -> login req env w = Server.login req env w) ∧
  (status (login req env w).2 = 200 ->
   ∃ u, stored w (login_email req) = Some u ∧
        (login req env w).1 = log (ESign (Some (JStr (email u)))) (Server.login req env w).1 ∧
        (login req env w).2 = session_cookie u env ∧
        (Server.login req env w).2 = logged_in).
Proof.
  destruct (stored w (login_email req)) as [u|] eqn:E.
  2:{ destruct (login_unknown req env w E) as [-> ->]; simpl. repeat split; done. }
  destruct (bcrypt_compare (login_password req) (password u)) as [[|]|msg] eqn:P.
  3:{ destruct (login_compare_throws req env w u msg E P) as [-> ->]; simpl.
      repeat split; done. }
  2:{ destruct (login_wrong_password req env w u E P) as [-> ->]; simpl.
      repeat split; done. }
  destruct (enrolled u) eqn:S.
  2:{ destruct (login_not_enrolled req env w u E P S) as [-> ->]; simpl.
      repeat split; try done. intros _. exists u. done. }
  destruct (totp_verify (twoFactorSecret u) (login_twoFactorToken req) (now env))
    as [[|]|msg] eqn:T.
  - destruct (login_totp_accepted req env w u E P S T) as [-> ->]; simpl.
    repeat split; try done. intros _. exists u. done.
  - destruct (login_totp_rejected req env w u E P S T) as [-> ->]; simpl.
    repeat split; done.
  - destruct (login_totp_throws req env w u msg E P S T) as [-> ->]; simpl.
    repeat split; done.
Qed.

(** *** [/verify] and [/check] beside [/login] *)

(** X10. [/verify] answers success exactly when email and token are
    non-empty, the account exists and the TOTP engine accepts the token
    for whatever the account holds as its secret. *)
Theorem verify_succeeds_iff (req : verify_body) (env : ambient) (w : world) :
  status (verify req env w).2 = 200
  ↔ truthy (verify_email req) = true ∧ truthy (verify_token req) = true ∧
    ∃ u, stored w (verify_email req) = Some u ∧
         totp_verify (twoFactorSecret u) (verify_token req) (now env) = Ok true.
Proof.
  destruct (truthy (verify_email req)) eqn:Ve.
  2:{ unfold verify. rewrite Ve; simpl. split; [done | by intros (? & _)]. }
  destruct (truthy (verify_token req)) eqn:Vt.
  2:{ unfold verify. rewrite Ve, Vt; simpl. split; [done | by intros (_ & ? & _)]. }
  destruct (stored w (verify_email req)) as [u|] eqn:E.
  - destruct (verify_decided_by_engine req env w u Ve Vt E) as [_ ->].
    destruct (totp_verify _ _ _) as [[|]|msg] eqn:T; simpl.
    + split; [|done]. intros _. repeat split; try done. exists u. done.
    + split; [done|]. intros (_ & _ & u' & [= <-] & T'). congruence.
    + split; [done|]. intros (_ & _ & u' & [= <-] & T'). congruence.
  - unfold verify, try_catch, findOne, respond, mbind, M_bind; simpl.
    rewrite Ve, Vt; simpl. rewrite E; simpl.
    split; [done|]. intros (_ & _ & u & ? & _). discriminate.
Qed.

(** X9. For an enrolled account and a non-empty code, [/verify] and the
    second step of [/login] agree: with a password that bcrypt accepts,
    the login succeeds exactly when [/verify] of the same code at the
    same time does. *)
Theorem verify_agrees_with_login (e pw tok : field) (env : ambient) (w : world) (u : User) :
  truthy e = true ->
  truthy tok = true ->
  stored w e = Some u ->
  enrolled u = true ->
  bcrypt_compare pw (password u) = Ok true ->
  let v := {| verify_email := e; verify_token := tok |} in
  let l := {| login_email := e; login_password := pw; login_twoFactorToken := tok |} in
  (status (verify v env w).2 = 200 ↔ status (login l env w).2 = 200) ∧
  (status (verify v env w).2 = 200 ↔ status (Server.login l env w).2 = 200).
Proof.
  intros Ve Vt E S P v l.
  destruct (verify_decided_by_engine v env w u Ve Vt E) as [_ ->]. simpl.
  destruct (totp_verify (twoFactorSecret u) tok (now env)) as [[|]|msg] eqn:T.
  - destruct (login_totp_accepted l env w u E P S T) as [-> ->]. done.
  - destruct (login_totp_rejected l env w u E P S T) as [-> ->]. done.
  - destruct (login_totp_throws l env w u msg E P S T) as [-> ->]. done.
Qed.

(** X11. [/check] tells what [/login] will do: for an account whose
    password bcrypt accepts, it reports [twoFactor: true] exactly when
    the login calls the TOTP engine; for an unknown email it reports
    [false], as for an account without a second factor. *)
Theorem check_foretells_login (e pw tok : field) (env : ambient) (w : world) :
  let c := {| check_email := e |} in
  let l := {| login_email := e; login_password := pw; login_twoFactorToken := tok |} in
  (stored w e = None -> (check c w).2 = reply 200 (JObj [("twoFactor", JBool false)])) ∧
  (∀ u, stored w e = Some u ->
     (check c w).2 = reply 200 (JObj [("twoFactor", JBool (enrolled u))]) ∧
     (bcrypt_compare pw (password u) = Ok true ->
      ((check c w).2 = reply 200 (JObj [("twoFactor", JBool true)])
       ↔ ETotpVerify (twoFactorSecret u) tok ∈ made w (login l env w).1))).
Proof.
  intros c l. split.
  - intros E. unfold check, try_catch, findOne, respond, mbind, M_bind; simpl.
    by rewrite E.
  - intros u E.
    assert ((check c w).2 = reply 200 (JObj [("twoFactor", JBool (enrolled u))])) as ->.
    { unfold check, try_catch, findOne, respond, mbind, M_bind, mret, M_ret; simpl.
      by rewrite E. }
    split; [reflexivity|]. intros P.
    destruct (enrolled u) eqn:S.
    + split; [intros _ | done].
      destruct (totp_verify (twoFactorSecret u) tok (now env)) as [[|]|msg] eqn:T.
      * destruct (login_totp_accepted l env w u E P S T) as [-> _]; simpl. calls.
        set_unfold. tauto.
      * destruct (login_totp_rejected l env w u E P S T) as [-> _]; simpl. calls.
        set_unfold. tauto.
      * destruct (login_totp_throws l env w u msg E P S T) as [-> _]; simpl. calls.
        set_unfold. tauto.
    + split; [discriminate|].
      destruct (login_not_enrolled l env w u E P S) as [-> _]; simpl. calls.
      intros X. in_log X.
Qed.

(** *** Expiry is the only clock *)

(** X16. A token that passes the middleware at some time passes it at
    every earlier time too: once a token is refused for its age it is
    refused from then on. *)
Theorem token_accepted_earlier (token : cookie) (clock clock' : Z) (user : option json) :
  authenticateToken token clock = Forwarded user ->
  clock' <= clock ->
  authenticateToken token clock' = Forwarded user.
Proof.
  intros A L. destruct token as [|raw|t].
  - discriminate.
  - unfold authenticateToken in A; simpl in A.
    destruct (String.eqb raw ""); discriminate.
  - destruct (authenticateToken_compact t clock) as [[(V1 & V2 & V3) A']|[_ A']];
      rewrite A' in A; [|discriminate].
    injection A as <-.
    destruct (authenticateToken_compact t clock') as [[_ ->]|[N _]]; [reflexivity|].
    destruct N. repeat split; try done.
    assert (clock' / 1000 <= clock / 1000) by (apply Z.div_le_mono; lia). lia.
Qed.

(** *** What [/register] and [/setup] write *)

Lemma truthy_Some (e : field) : truthy e = true -> ∃ k, e = Some k ∧ k ≠ "".
Proof.
  destruct e as [k|]; [|discriminate]. simpl. intros V. exists k. split; [done|].
  intros ->. discriminate.
Qed.

Lemma setup_unknown (req : setup_body) (env : ambient) (w : world) :
  truthy (setup_email req) = true ->
  truthy (setup_password req) = true ->
  stored w (setup_email req) = None ->
  setup req env w =
    (log (EFindOne (setup_email req)) w,
     reply 404 (JObj [("error", JStr "Användaren finns inte")])).
Proof.
  intros Ve Vp E. run_setup. rewrite Ve, Vp; simpl. rewrite E. reflexivity.
Qed.

Lemma setup_compare_throws (req : setup_body) (env : ambient) (w : world) (u : User) msg :
  truthy (setup_email req) = true ->
  truthy (setup_password req) = true ->
  stored w (setup_email req) = Some u ->
  bcrypt_compare (setup_password req) (password u) = Throw msg ->
  setup req env w =
    (log (ECompare (setup_password req) (password u)) (log (EFindOne (setup_email req)) w),
     setup_failed).
Proof.
  intros Ve Vp E P. run_setup. rewrite Ve, Vp; simpl. rewrite E, P. reflexivity.
Qed.

Lemma setup_accepted (req : setup_body) (env : ambient) (w : world) (u : User) :
  truthy (setup_email req) = true ->
  truthy (setup_password req) = true ->
  stored w (setup_email req) = Some u ->
  bcrypt_compare (setup_password req) (password u) = Ok true ->
  db (setup req env w).1
    = <[email u := set_twoFactorSecret u (base32 (generateSecret 20 (entropy env)))]> (db w) ∧
  (setup req env w).2 =
    match toDataURL (otpauthURL (ascii (generateSecret 20 (entropy env))) "Bonnier" "Exjobb") with
    | Ok qrCodeImageUrl => enrollment qrCodeImageUrl
    | Throw _ => setup_failed
    end.
Proof.
  intros Ve Vp E P. run_setup. rewrite Ve, Vp; simpl. rewrite E, P; simpl.
  destruct (toDataURL _); done.
Qed.

Lemma setup_writes_or_not (req : setup_body) (env : ambient) (w : world) :
  (∃ u, stored w (setup_email req) = Some u ∧
        db (setup req env w).1
          = <[email u := set_twoFactorSecret u (base32 (generateSecret 20 (entropy env)))]> (db w)) ∨
  db (setup req env w).1 = db w.
Proof.
  destruct (truthy (setup_email req) && truthy (setup_password req)) eqn:V.
  2:{ right. by rewrite (setup_missing_field req env w V). }
  apply andb_prop in V as [Ve Vp].
  destruct (stored w (setup_email req)) as [u|] eqn:E.
  2:{ right. by rewrite (setup_unknown req env w Ve Vp E). }
  destruct (bcrypt_compare (setup_password req) (password u)) as [[|]|msg] eqn:P.
  - left. exists u. destruct (setup_accepted req env w u Ve Vp E P) as [D _]. done.
  - right. by rewrite (setup_wrong_password req env w u Ve Vp E P).
  - right. by rewrite (setup_compare_throws req env w u msg Ve Vp E P).
Qed.

(** X17. [/setup] writes to the store only for an existing account
    whose password bcrypt has accepted, and then it writes that
    account's secret; on every other path (missing field, unknown
    account, rejected password, failing comparison) the store is as it
    was and the answer is not a success. *)
Theorem setup_writes_only_with_password (req : setup_body) (env : ambient) (w : world) :
  (∃ u, truthy (setup_email req) = true ∧ truthy (setup_password req) = true ∧
        stored w (setup_email req) = Some u ∧
        bcrypt_compare (setup_password req) (password u) = Ok true ∧
        db (setup req env w).1
          = <[email u := set_twoFactorSecret u (base32 (generateSecret 20 (entropy env)))]> (db w)) ∨
  (db (setup req env w).1 = db w ∧ status (setup req env w).2 ≠ 200).
Proof.
  destruct (truthy (setup_email req) && truthy (setup_password req)) eqn:V.
  2:{ right. by rewrite (setup_missing_field req env w V). }
  apply andb_prop in V as [Ve Vp].
  destruct (stored w (setup_email req)) as [u|] eqn:E.
  2:{ right. by rewrite (setup_unknown req env w Ve Vp E). }
  destruct (bcrypt_compare (setup_password req) (password u)) as [[|]|msg] eqn:P.
  - left. exists u. destruct (setup_accepted req env w u Ve Vp E P) as [D _]. done.
  - right. by rewrite (setup_wrong_password req env w u Ve Vp E P).
  - right. by rewrite (setup_compare_throws req env w u msg Ve Vp E P).
Qed.

(** X6. The secret is saved before the image is rendered: when the
    renderer fails after an accepted password, [/setup] answers 500 and
    the account nevertheless holds the new secret. *)
Theorem setup_render_failure_still_enrolls (req : setup_body) (env : ambient)
    (w : world) (u : User) (msg : string) :
  keyed w ->
  truthy (setup_email req) = true ->
  truthy (setup_password req) = true ->
  stored w (setup_email req) = Some u ->
  bcrypt_compare (setup_password req) (password u) = Ok true ->
  toDataURL (otpauthURL (ascii (generateSecret 20 (entropy env))) "Bonnier" "Exjobb")
    = Throw msg ->
  (setup req env w).2 = setup_failed ∧
  stored (setup req env w).1 (setup_email req)
    = Some (set_twoFactorSecret u (base32 (generateSecret 20 (entropy env)))).
Proof.
  intros K Ve Vp E P Q.
  destruct (setup_accepted req env w u Ve Vp E P) as [D ->]. rewrite Q.
  split; [reflexivity|].
  rewrite (keyed_stored w _ u K E). unfold stored; simpl. rewrite D.
  apply lookup_insert_eq.
Qed.

(** X5. After a [/setup] with an accepted password, whatever became of
    the image, [/check] reports the second factor and a login with an
    accepted password goes through the TOTP engine with the new secret:
    it succeeds exactly when the engine accepts the code for it. *)
Theorem setup_then_second_factor_required (e p : field) (env : ambient)
    (w : world) (u : User) :
  keyed w ->
  truthy e = true ->
  truthy p = true ->
  stored w e = Some u ->
  bcrypt_compare p (password u) = Ok true ->
  base32 (generateSecret 20 (entropy env)) ≠ "" ->
  let w1 := (setup {| setup_email := e; setup_password := p |} env w).1 in
  let secret := Some (base32 (generateSecret 20 (entropy env))) in
  (check {| check_email := e |} w1).2 = reply 200 (JObj [("twoFactor", JBool true)]) ∧
  ∀ pw tok env',
    bcrypt_compare pw (password u) = Ok true ->
    let l := {| login_email := e; login_password := pw; login_twoFactorToken := tok |} in
    (status (login l env' w1).2 = 200 ↔ totp_verify secret tok (now env') = Ok true) ∧
    (status (Server.login l env' w1).2 = 200 ↔ totp_verify secret tok (now env') = Ok true) ∧
    ETotpVerify secret tok ∈ made w1 (login l env' w1).1.
Proof.
  intros K Ve Vp E P N w1 secret.
  set (req := {| setup_email := e; setup_password := p |}) in *.
  set (u' := set_twoFactorSecret u (base32 (generateSecret 20 (entropy env)))).
  assert (stored w1 e = Some u') as E1.
  { destruct (setup_accepted req env w u Ve Vp E P) as [D _].
    rewrite (keyed_stored w e u K E). unfold stored, w1; simpl. rewrite D.
    apply lookup_insert_eq. }
  assert (enrolled u' = true) as S1.
  { unfold enrolled, u'; simpl. apply negb_true_iff, String.eqb_neq, N. }
  split.
  - unfold check, try_catch, findOne, respond, mbind, M_bind, mret, M_ret; simpl.
    rewrite E1, S1. reflexivity.
  - intros pw tok env' P1 l.
    change (password u) with (password u') in P1.
    change secret with (twoFactorSecret u').
    destruct (totp_verify (twoFactorSecret u') tok (now env')) as [[|]|msg] eqn:T.
    + destruct (login_totp_accepted l env' w1 u' E1 P1 S1 T) as [-> ->]; simpl. calls.
      repeat split; try done. set_unfold. tauto.
    + destruct (login_totp_rejected l env' w1 u' E1 P1 S1 T) as [-> ->]; simpl. calls.
      repeat split; try done. set_unfold. tauto.
    + destruct (login_totp_throws l env' w1 u' msg E1 P1 S1 T) as [-> ->]; simpl. calls.
      repeat split; try done. set_unfold. tauto.
Qed.

(** X18. [/register] answers 200 exactly for a request with both fields
    non-empty and an email no account is stored under; it then adds the
    new account, without a second factor, under that email, and on
    every other path the store is as it was. *)
Theorem register_succeeds_iff (req : register_body) (w : world) :
  (status (register req w).2 = 200
   ↔ truthy (reg_email req) = true ∧ truthy (reg_password req) = true ∧
     stored w (reg_email req) = None) ∧
  (status (register req w).2 = 200 ->
   (register req w).2 = created (reg_email req) ∧
   db (register req w).1
     = <[to_string (reg_email req) := new_User (reg_email req) (reg_password req)]> (db w) ∧
   twoFactorSecret (new_User (reg_email req) (reg_password req)) = None) ∧
  (status (register req w).2 ≠ 200 -> db (register req w).1 = db w).
Proof.
  destruct (truthy (reg_email req) && truthy (reg_password req)) eqn:V.
  2:{ rewrite (register_missing_field req w V); simpl.
      split; [|done]. split; [done|]. intros (Ve & Vp & _).
      rewrite Ve, Vp in V. discriminate. }
  apply andb_prop in V as [Ve Vp].
  destruct (stored w (reg_email req)) as [u|] eqn:E.
  - rewrite (register_existing req w u Ve Vp E); simpl.
    split; [|done]. split; [done|]. intros (_ & _ & ?). discriminate.
  - rewrite (register_fresh req w Ve Vp E); simpl. done.
Qed.

(** X4. After the registration of a fresh email, [/check] reports no
    second factor, and a login for that email succeeds exactly when
    bcrypt accepts its password against the hash stored at registration;
    the TOTP engine is not called, whatever code is sent. *)
Theorem register_then_login (e p pw tok : field) (env : ambient) (w : world) :
  truthy e = true ->
  truthy p = true ->
  stored w e = None ->
  let w1 := (register {| reg_email := e; reg_password := p |} w).1 in
  let l := {| login_email := e; login_password := pw; login_twoFactorToken := tok |} in
  (check {| check_email := e |} w1).2 = reply 200 (JObj [("twoFactor", JBool false)]) ∧
  (status (login l env w1).2 = 200
   ↔ bcrypt_compare pw (bcrypt_hash (to_string p)) = Ok true) ∧
  (status (Server.login l env w1).2 = 200
   ↔ bcrypt_compare pw (bcrypt_hash (to_string p)) = Ok true) ∧
  (∀ s t, ETotpVerify s t ∉ made w1 (login l env w1).1).
Proof.
  intros Ve Vp E w1 l.
  set (req := {| reg_email := e; reg_password := p |}) in *.
  assert (stored w1 e = Some (new_User e p)) as E1.
  { unfold w1. rewrite (register_fresh req w Ve Vp E); simpl.
    destruct (truthy_Some e Ve) as (k & -> & _).
    unfold stored; simpl. apply lookup_insert_eq. }
  assert (enrolled (new_User e p) = false) as S1 by reflexivity.
  split.
  - unfold check, try_catch, findOne, respond, mbind, M_bind, mret, M_ret; simpl.
    rewrite E1. reflexivity.
  - change (bcrypt_hash (to_string p)) with (password (new_User e p)).
    destruct (bcrypt_compare pw (password (new_User e p))) as [[|]|msg] eqn:P.
    + destruct (login_not_enrolled l env w1 _ E1 P S1) as [-> ->]; simpl. calls.
      repeat split; try done. intros s t X. in_log X.
    + destruct (login_wrong_password l env w1 _ E1 P) as [-> ->]; simpl. calls.
      repeat split; try done. intros s t X. in_log X.
    + destruct (login_compare_throws l env w1 _ msg E1 P) as [-> ->]; simpl. calls.
      repeat split; try done. intros s t X. in_log X.
Qed.

(** X7. No route removes an account or changes its email or its
    password hash: an account stored before a [/register] is stored
    unchanged after it, and after a [/setup] it is stored with the same
    email and hash. *)
Theorem accounts_persist (r : register_body) (s : setup_body) (env : ambient)
    (w : world) (e : field) (u : User) :
  keyed w ->
  stored w e = Some u ->
  stored (register r w).1 e = Some u ∧
  ∃ u', stored (setup s env w).1 e = Some u' ∧
        email u' = email u ∧ password u' = password u.
Proof.
  intros K E. destruct e as [k|]; [|discriminate].
  unfold stored in E |- *; simpl in E |- *. split.
  - destruct (truthy (reg_email r) && truthy (reg_password r)) eqn:V.
    2:{ by rewrite (register_missing_field r w V). }
    apply andb_prop in V as [Ve Vp].
    destruct (stored w (reg_email r)) as [u0|] eqn:E0.
    { by rewrite (register_existing r w u0 Ve Vp E0). }
    rewrite (register_fresh r w Ve Vp E0); simpl.
    destruct (truthy_Some _ Ve) as (k' & Ek & _). rewrite Ek in *; simpl.
    rewrite lookup_insert_ne; [done|].
    intros ->. unfold stored in E0; simpl in E0. congruence.
  - destruct (setup_writes_or_not s env w) as [(u0 & E0 & D)|D]; rewrite D.
    2:{ exists u. done. }
    pose proof (keyed_stored w _ u0 K E0) as Ek.
    rewrite Ek in E0. unfold stored in E0; simpl in E0.
    destruct (decide (email u0 = k)) as [<-|Ne].
    + rewrite lookup_insert_eq. eexists. split; [reflexivity|].
      assert (u0 = u) as -> by congruence. done.
    + rewrite lookup_insert_ne; [|done]. exists u. done.
Qed.

(** *** [/freja] at its edges *)

(** X12. [/freja] sends no response at all exactly when a login was
    given and the provider's promise rejects, or its result is null so
    that reading its status throws, or its result is completed but has
    no [extra] object to read the email from: nothing catches the
    rejection or the exception of the callback. *)
Theorem freja_unanswered_iff (req : freja_body) (env : ambient) (w : world) :
  (freja req env w).2 = None
  ↔ truthy (freja_login req) = true ∧
    (authRequest (to_string (freja_login req)) (id_type req) = None ∨
     ∃ result msg,
       authRequest (to_string (freja_login req)) (id_type req) = Some result ∧
       (completed result = Throw msg ∨
        completed result = Ok true ∧ primaryEmail result = Throw msg)).
Proof.
  destruct (truthy (freja_login req)) eqn:V.
  2:{ unfold freja. rewrite V; simpl. split; [done | by intros [? _]]. }
  rewrite (freja_run req env w V). cbv zeta.
  destruct (authRequest _ _) as [result|].
  2:{ split; [|done]. intros _. split; [done|]. by left. }
  destruct (completed result) as [[|]|msg] eqn:Cd.
  - destruct (primaryEmail result) as [claimed|msg] eqn:P; simpl.
    + split; [done|].
      intros (_ & [?|(r & m & [= <-] & [Cd'|[_ P']])]); congruence.
    + split; [|done]. intros _. split; [done|]. right. eauto 6.
  - simpl. split; [done|].
    intros (_ & [?|(r & m & [= <-] & [Cd'|[Cd' _]])]); congruence.
  - simpl. split; [|done]. intros _. split; [done|]. right. eauto 6.
Qed.

(** X13. A missing or empty [type] means ["ssn"], and the answer of
    [/freja] does not depend on the store: the same request gets the
    same response whatever accounts exist. *)
Theorem freja_defaults_and_ignores_store (login : field) (req : freja_body)
    (env : ambient) (w w' : world) :
  freja {| freja_login := login; freja_type := None |} env w
    = freja {| freja_login := login; freja_type := Some "ssn" |} env w ∧
  freja {| freja_login := login; freja_type := Some "" |} env w
    = freja {| freja_login := login; freja_type := Some "ssn" |} env w ∧
  (freja req env w).2 = (freja req env w').2.
Proof.
  split; [reflexivity|]. split; [reflexivity|].
  destruct (truthy (freja_login req)) eqn:V.
  2:{ unfold freja. by rewrite V. }
  rewrite (freja_run req env w V), (freja_run req env w' V). cbv zeta.
  destruct (authRequest _ _) as [result|]; [|done].
  destruct (completed result) as [[|]|msg]; try done.
  destruct (primaryEmail result); done.
Qed.

(** *** From a login to [/authenticate] *)

Lemma login_cookie_account (req : login_body) (env : ambient) (w : world) (token : jwt) :
  cookies (login req env w).2 = [("token", token)] ->
  ∃ u, stored w (login_email req) = Some u ∧
       token = jwt_sign (Some (JStr (email u))) privateKey "RS256" one_hour (now env).
Proof.
  destruct (stored w (login_email req)) as [u|] eqn:E.
  2:{ by destruct (login_unknown req env w E) as [-> _]. }
  destruct (bcrypt_compare (login_password req) (password u)) as [[|]|msg] eqn:P.
  3:{ by destruct (login_compare_throws req env w u msg E P) as [-> _]. }
  2:{ by destruct (login_wrong_password req env w u E P) as [-> _]. }
  destruct (enrolled u) eqn:S.
  2:{ destruct (login_not_enrolled req env w u E P S) as [-> _]; simpl.
      intros [= <-]. eauto. }
  destruct (totp_verify (twoFactorSecret u) (login_twoFactorToken req) (now env))
    as [[|]|msg] eqn:T.
  - destruct (login_totp_accepted req env w u E P S T) as [-> _]; simpl.
    intros [= <-]. eauto.
  - by destruct (login_totp_rejected req env w u E P S T) as [-> _].
  - by destruct (login_totp_throws req env w u msg E P S T) as [-> _].
Qed.

Lemma signed_token_authenticates (subject : option json) (issued clock : Z) :
  (∀ cl, jws_verify "RS256" publicKey cl (jws_sign "RS256" privateKey cl) = true) ->
  let token := jwt_sign subject privateKey "RS256" one_hour issued in
  (clock / 1000 < issued / 1000 + 3600 ->
   authenticate (Compact token) clock
     = reply 200 (JObj (("status", JStr "success") :: prop "email" subject))) ∧
  (issued / 1000 + 3600 <= clock / 1000 ->
   authenticate (Compact token) clock = token_invalid).
Proof.
  intros K token. unfold authenticate.
  destruct (authenticateToken_compact token clock) as [[(_ & V & _) ->]|[N ->]].
  - split; [done|]. simpl in V. unfold one_hour in V. lia.
  - split; [|done]. intros L. destruct N.
    split; [apply K|]. split; [simpl; unfold one_hour; lia | reflexivity].
Qed.

(** X14. With a sound key pair and a store keyed by email, the token a
    login sets is answered by [/authenticate] with the email of the
    request for one hour from the second of the login, and with
    TokenInvalid from then on. *)
Theorem login_token_authenticates (req : login_body) (env : ambient) (w : world)
    (token : jwt) (clock : Z) :
  (∀ cl, jws_verify "RS256" publicKey cl (jws_sign "RS256" privateKey cl) = true) ->
  keyed w ->
  cookies (login req env w).2 = [("token", token)] ->
  ∃ e, login_email req = Some e ∧
       (clock / 1000 < now env / 1000 + 3600 ->
        authenticate (Compact token) clock
          = reply 200 (JObj [("status", JStr "success"); ("email", JStr e)])) ∧
       (now env / 1000 + 3600 <= clock / 1000 ->
        authenticate (Compact token) clock = token_invalid).
Proof.
  intros K Kw Ck.
  destruct (login_cookie_account req env w token Ck) as (u & E & ->).
  exists (email u). split; [exact (keyed_stored w _ u Kw E)|].
  exact (signed_token_authenticates (Some (JStr (email u))) (now env) clock K).
Qed.

(** X15. With a sound key pair, the token [/freja] sets for a completed
    result is answered by [/authenticate] with the email the provider
    claimed, for one hour, whether or not any account exists for it. *)
Theorem freja_token_authenticates (req : freja_body) (env : ambient) (w : world)
    (result : json) (claimed : option json) (clock : Z) :
  (∀ cl, jws_verify "RS256" publicKey cl (jws_sign "RS256" privateKey cl) = true) ->
  truthy (freja_login req) = true ->
  authRequest (to_string (freja_login req)) (id_type req) = Some result ->
  completed result = Ok true ->
  primaryEmail result = Ok claimed ->
  clock / 1000 < now env / 1000 + 3600 ->
  ∃ token,
    cookies <$> (freja req env w).2 = Some [("token", token)] ∧
    authenticate (Compact token) clock
      = reply 200 (JObj (("status", JStr "success") :: prop "email" claimed)).
Proof.
  intros K V A Cd P L.
  rewrite (freja_run req env w V). cbv zeta. rewrite A, Cd, P; simpl.
  eexists. split; [reflexivity|].
  by apply (signed_token_authenticates claimed (now env) clock K).
Qed.

(** X19. No route but [/login] and [/freja] sets a cookie, and [/freja]
    sets one only for a completed result: the token signed for the
    claimed email. *)
Theorem cookies_only_from_login_and_freja (r : register_body) (c : check_body)
    (s : setup_body) (v : verify_body) (f : freja_body) (token : cookie) (clock : Z)
    (env : ambient) (w : world) :
  cookies (register r w).2 = [] ∧
  cookies (check c w).2 = [] ∧
  cookies (setup s env w).2 = [] ∧
  cookies (verify v env w).2 = [] ∧
  cookies (authenticate token clock) = [] ∧
  (∀ answer, (freja f env w).2 = Some answer ->
     cookies answer = [] ∨
     ∃ result claimed,
       authRequest (to_string (freja_login f)) (id_type f) = Some result ∧
       completed result = Ok true ∧ primaryEmail result = Ok claimed ∧
       cookies answer
         = [("token", jwt_sign claimed privateKey "RS256" one_hour (now env))]).
Proof.
  split; [|split; [|split; [|split; [|split]]]].
  - run_register.
    destruct (truthy (reg_email r)), (truthy (reg_password r)); simpl; try done.
    destruct (stored w (reg_email r)); done.
  - unfold check, try_catch, findOne, respond, mbind, M_bind, mret, M_ret; simpl.
    destruct (stored w (check_email c)); done.
  - run_setup.
    destruct (truthy (setup_email s)), (truthy (setup_password s)); simpl; try done.
    destruct (stored w (setup_email s)) as [u|]; simpl; [|done].
    destruct (bcrypt_compare _ _) as [[|]|msg]; simpl; try done.
    destruct (toDataURL _); done.
  - unfold verify, try_catch, findOne, call, respond, mbind, M_bind, mret, M_ret; simpl.
    destruct (truthy (verify_email v)), (truthy (verify_token v)); simpl; try done.
    destruct (stored w (verify_email v)); simpl; [|done].
    destruct (totp_verify _ _ _) as [[|]|msg]; done.
  - unfold authenticate. destruct (authenticateToken token clock) eqn:A; [|done].
    destruct token as [|raw|t].
    + by injection A as <-.
    + unfold authenticateToken in A; simpl in A.
      destruct (String.eqb raw ""); by injection A as <-.
    + destruct (authenticateToken_compact t clock) as [[_ A']|[_ A']];
        rewrite A' in A; [discriminate | by injection A as <-].
  - intros answer.
    destruct (truthy (freja_login f)) eqn:V.
    2:{ unfold freja. rewrite V; simpl. intros [= <-]. by left. }
    rewrite (freja_run f env w V). cbv zeta.
    destruct (authRequest _ _) as [result|]; [|done].
    destruct (completed result) as [[|]|msg] eqn:Cd; [| |done].
    + destruct (primaryEmail result) as [claimed|msg] eqn:P; [|done].
      simpl. intros [= <-]. right. exists result, claimed. done.
    + simpl. intros [= <-]. by left.
Qed.

End Properties.

(** ** The routes on the reference instance *)

Module Scenarios.
Import Reference.
#[local] Existing Instance collaborators.

(** The scenario of the testable properties: a login with the right
    password and the current code succeeds, one with a stale code does
    not. *)
Example ada_logs_in :
  (login (ada_login (Some "Q3KG3VM")) noon w0).2 = session_cookie ada noon.
Proof. vm_compute. reflexivity. Qed.

Example ada_code_verifies :
  (verify {| verify_email := Some "ada@x.com"; verify_token := Some "Q3KG3VM" |} noon w0).2
    = verified_ok.
Proof. vm_compute. reflexivity. Qed.

(** Register, log in, enrol, and log in again with a stale and with the
    current code; the token of the last login passes the middleware. *)
Example cy_enrols :
  let w1 := (register (cy_register (Some "p3")) empty_world).1 in
  let cy := {| login_email := Some "cy@x.com"; login_password := Some "p3";
               login_twoFactorToken := None |} in
  let w2 := (login cy noon w1).1 in
  let w3 := (setup {| setup_email := Some "cy@x.com"; setup_password := Some "p3" |}
               noon w2).1 in
  let cy' (code : string) :=
    {| login_email := Some "cy@x.com"; login_password := Some "p3";
       login_twoFactorToken := Some code |} in
  status (login cy noon w1).2 = 200 ∧
  (check {| check_email := Some "cy@x.com" |} w2).2
    = reply 200 (JObj [("twoFactor", JBool false)]) ∧
  (check {| check_email := Some "cy@x.com" |} w3).2
    = reply 200 (JObj [("twoFactor", JBool true)]) ∧
  (login cy noon w3).2 = invalid_second_factor ∧
  (login (cy' "000000") noon w3).2 = invalid_second_factor ∧
  ∃ token,
    cookies (login (cy' "IGS5N") noon w3).2 = [("token", token)] ∧
    authenticate (Compact token) (now noon + 60000)
      = reply 200 (JObj [("status", JStr "success"); ("email", JStr "cy@x.com")]).
Proof.
  vm_compute. repeat split; try reflexivity. eexists. split; reflexivity.
Qed.

Example ada_stale_code :
  (login (ada_login (Some "000000")) noon w0).2 = invalid_second_factor.
Proof. vm_compute. reflexivity. Qed.

Lemma login_checks_in_order_witness :
  stored w0 (login_email ada_wrong_password) = Some ada ∧
  bcrypt_compare (login_password ada_wrong_password) (password ada) = Ok false ∧
  (login ada_wrong_password noon w0).2 = invalid_credentials ∧
  made w0 (login ada_wrong_password noon w0).1 =
    [EFindOne (Some "ada@x.com"); ECompare (Some "guess") (password ada)].
Proof.
  assert (stored w0 (login_email ada_wrong_password) = Some ada) as E
    by (vm_compute; reflexivity).
  assert (bcrypt_compare (login_password ada_wrong_password) (password ada) = Ok false) as P
    by (vm_compute; reflexivity).
  split; [exact E|]. split; [exact P|].
  destruct (proj1 (proj2 login_checks_in_order) ada_wrong_password noon w0 ada E P)
    as (R & _ & L & _).
  split; [exact R | exact L].
Defined.

Lemma login_second_factor_rejected_witness :
  stored w0 (login_email (ada_login (Some "000000"))) = Some ada ∧
  bcrypt_compare (Some "p1") (password ada) = Ok true ∧
  enrolled ada = true ∧
  totp_verify (twoFactorSecret ada) (Some "000000") (now noon) = Ok false ∧
  (login (ada_login (Some "000000")) noon w0).2 = invalid_second_factor.
Proof.
  assert (stored w0 (login_email (ada_login (Some "000000"))) = Some ada) as E
    by (vm_compute; reflexivity).
  assert (bcrypt_compare (Some "p1") (password ada) = Ok true) as P
    by (vm_compute; reflexivity).
  assert (enrolled ada = true) as S by reflexivity.
  assert (totp_verify (twoFactorSecret ada) (Some "000000") (now noon) = Ok false) as T
    by (vm_compute; reflexivity).
  repeat (split; [assumption|]).
  exact (proj1 (login_second_factor_rejected (ada_login (Some "000000")) noon w0 ada E P S T)).
Defined.

(** C2, as stated, fails: a missing code and a wrong code get the very
    same InvalidSecondFactor response, whose flag is [true] in both
    cases. *)
Lemma second_factor_flag_same_for_absent_and_wrong :
  totp_verify (twoFactorSecret ada) None (now noon) = Ok false ∧
  totp_verify (twoFactorSecret ada) (Some "000000") (now noon) = Ok false ∧
  (login (ada_login None) noon w0).2 = (login (ada_login (Some "000000")) noon w0).2 ∧
  (Server.login (ada_login None) noon w0).2
    = (Server.login (ada_login (Some "000000")) noon w0).2 ∧
  get (body (login (ada_login None) noon w0).2) "twoFactorRequired" = Some (JBool true) ∧
  get (body (login (ada_login (Some "000000")) noon w0).2) "twoFactorRequired"
    = Some (JBool true).
Proof. vm_compute. repeat split; reflexivity. Qed.

Lemma login_without_second_factor_witness :
  stored w0 (login_email (bo_login (Some "p2") (Some "123456"))) = Some bo ∧
  enrolled bo = false ∧
  ((login (bo_login (Some "p2") (Some "123456")) noon w0).2 = session_cookie bo noon
     ↔ bcrypt_compare (Some "p2") (password bo) = Ok true).
Proof.
  assert (stored w0 (login_email (bo_login (Some "p2") (Some "123456"))) = Some bo) as E
    by (vm_compute; reflexivity).
  assert (enrolled bo = false) as S by reflexivity.
  split; [exact E|]. split; [exact S|].
  exact (proj1 (login_without_second_factor
                  (bo_login (Some "p2") (Some "123456")) noon w0 bo E S)).
Defined.

Lemma setup_wrong_password_keeps_state_witness :
  stored w0 (setup_email (bo_setup (Some "guess"))) = Some bo ∧
  bcrypt_compare (Some "guess") (password bo) = Ok false ∧
  db (setup (bo_setup (Some "guess")) noon w0).1 = db w0.
Proof.
  assert (stored w0 (setup_email (bo_setup (Some "guess"))) = Some bo) as E
    by (vm_compute; reflexivity).
  assert (bcrypt_compare (Some "guess") (password bo) = Ok false) as P
    by (vm_compute; reflexivity).
  split; [exact E|]. split; [exact P|].
  exact (proj1 (setup_wrong_password_keeps_state (bo_setup (Some "guess")) noon w0 bo E P)).
Defined.

(** C4, as stated, fails: the empty password does not verify against
    bo's hash, and SetupSecondFactor answers it with the validation
    error, not with InvalidCredentials. *)
Lemma setup_empty_password_is_validation_error :
  stored w0 (setup_email (bo_setup (Some ""))) = Some bo ∧
  bcrypt_compare (Some "") (password bo) = Ok false ∧
  (setup (bo_setup (Some "")) noon w0).2 = credentials_required ∧
  (setup (bo_setup (Some "")) noon w0).2 ≠ setup_invalid_credentials.
Proof.
  split; [vm_compute; reflexivity|]. split; [vm_compute; reflexivity|].
  split; [vm_compute; reflexivity|]. vm_compute. discriminate.
Qed.

(** Tokens signed with a different key are answered TokenInvalid. *)
Example forged_token_rejected :
  authenticateToken (Compact forged_token) (now noon) = Answered token_invalid.
Proof. vm_compute. reflexivity. Qed.

Lemma authenticateToken_valid_iff_witness :
  presented NoCookie = false ∧
  authenticateToken NoCookie (now noon) = Answered token_missing ∧
  presented (Compact forged_token) = true ∧
  (∀ t, Compact forged_token = Compact t -> ¬ valid_token t (now noon)) ∧
  authenticateToken (Compact forged_token) (now noon) = Answered token_invalid ∧
  valid_token ada_token (now noon) ∧
  authenticateToken (Compact ada_token) (now noon) = Forwarded (Some (JStr "ada@x.com")).
Proof.
  assert (∀ t, Compact forged_token = Compact t -> ¬ valid_token t (now noon)) as N.
  { intros t [= <-] (V & _). vm_compute in V. discriminate. }
  assert (valid_token ada_token (now noon)) as V.
  { split; [vm_compute; reflexivity|]. split; [vm_compute; reflexivity | reflexivity]. }
  split; [reflexivity|].
  split; [exact (proj1 (authenticateToken_valid_iff NoCookie (now noon)) eq_refl)|].
  split; [reflexivity|]. split; [exact N|].
  split; [exact (proj1 (proj2 (authenticateToken_valid_iff (Compact forged_token) (now noon)))
                   eq_refl N)|].
  split; [exact V|].
  apply (proj2 (authenticateToken_valid_iff (Compact ada_token) (now noon))).
  exists ada_token. split; [reflexivity|]. split; [exact V | reflexivity].
Defined.

Lemma issued_token_round_trip_witness :
  (∀ cl, jws_verify "RS256" publicKey cl (jws_sign "RS256" privateKey cl) = true) ∧
  authenticateToken (Compact ada_token) (now noon) = Forwarded (Some (JStr "ada@x.com")) ∧
  authenticateToken (Compact ada_token) (now noon + 3600000) = Answered token_invalid.
Proof.
  assert (∀ cl, jws_verify "RS256" publicKey cl (jws_sign "RS256" privateKey cl) = true)
    as K by (intros cl; reflexivity).
  split; [exact K|].
  destruct (issued_token_round_trip (Some (JStr "ada@x.com")) (now noon)
              (now noon + 3600000) K) as (_ & _ & Fresh & _ & Stale).
  split; [exact Fresh|].
  apply Stale. vm_compute. discriminate.
Defined.

Lemma freja_login_by_provider_witness :
  (truthy (freja_login eva_freja) = true ∧
   authRequest (to_string (freja_login eva_freja)) (id_type eva_freja) = Some eva_result ∧
   completed eva_result = Ok true ∧
   primaryEmail eva_result = Ok (Some (JStr "eva@example.se")) ∧
   ∃ token,
     cookies <$> (freja eva_freja noon w0).2 = Some [("token", token)] ∧
     c_email (j_claims token) = Some (JStr "eva@example.se")) ∧
  (truthy (freja_login lars_freja) = true ∧
   authRequest (to_string (freja_login lars_freja)) (id_type lars_freja) = Some lars_result ∧
   completed lars_result = Ok true ∧
   primaryEmail lars_result = Ok (Some (JStr "lars@example.se")) ∧
   ∃ token,
     cookies <$> (freja lars_freja noon w0).2 = Some [("token", token)] ∧
     c_email (j_claims token) = Some (JStr "lars@example.se")) ∧
  (truthy (freja_login cancelled_freja) = true ∧
   authRequest (to_string (freja_login cancelled_freja)) (id_type cancelled_freja)
     = Some cancelled_result ∧
   completed cancelled_result = Ok false ∧
   (freja cancelled_freja noon w0).2
     = Some (reply 401 (JObj [("error", cancelled_result)]))) ∧
  (truthy (freja_login null_freja) = true ∧
   authRequest (to_string (freja_login null_freja)) (id_type null_freja) = Some JNull ∧
   completed JNull = Throw "Cannot read properties of null" ∧
   (freja null_freja noon w0).2 = None).
Proof.
  assert (authRequest (to_string (freja_login eva_freja)) (id_type eva_freja)
          = Some eva_result) as Ae by reflexivity.
  assert (authRequest (to_string (freja_login lars_freja)) (id_type lars_freja)
          = Some lars_result) as Al by reflexivity.
  assert (authRequest (to_string (freja_login cancelled_freja)) (id_type cancelled_freja)
          = Some cancelled_result) as Ac by reflexivity.
  assert (authRequest (to_string (freja_login null_freja)) (id_type null_freja)
          = Some JNull) as An by reflexivity.
  assert (completed eva_result = Ok true) as Ce by reflexivity.
  assert (completed lars_result = Ok true) as Cl by reflexivity.
  assert (completed cancelled_result = Ok false) as Cc by reflexivity.
  assert (completed JNull = Throw "Cannot read properties of null") as Cn by reflexivity.
  assert (primaryEmail eva_result = Ok (Some (JStr "eva@example.se"))) as Pe by reflexivity.
  assert (primaryEmail lars_result = Ok (Some (JStr "lars@example.se"))) as Pl by reflexivity.
  split; [|split; [|split]].
  - split; [reflexivity|]. split; [exact Ae|]. split; [exact Ce|]. split; [exact Pe|].
    destruct (proj1 (freja_login_by_provider eva_freja noon w0 eva_result eq_refl Ae)
                Ce _ Pe) as (token & R & _ & S & _).
    exists token. rewrite R. split; [reflexivity | exact S].
  - split; [reflexivity|]. split; [exact Al|]. split; [exact Cl|]. split; [exact Pl|].
    destruct (proj1 (freja_login_by_provider lars_freja noon w0 lars_result eq_refl Al)
                Cl _ Pl) as (token & R & _ & S & _).
    exists token. rewrite R. split; [reflexivity | exact S].
  - split; [reflexivity|]. split; [exact Ac|]. split; [exact Cc|].
    exact (proj1 (proj1 (proj2 (freja_login_by_provider cancelled_freja noon w0
                                  cancelled_result eq_refl Ac)) Cc)).
  - split; [reflexivity|]. split; [exact An|]. split; [exact Cn|].
    exact (proj1 (proj2 (proj2 (freja_login_by_provider null_freja noon w0
                                  JNull eq_refl An)) _ Cn)).
Defined.

(** The edges of [/freja] on the reference provider: a result completed
    without an [extra] object and a rejected promise get no response; a
    cancelled login sets no cookie, and no completed login is answered
    with another identity's email. *)
Example freja_edges :
  (freja bare_freja noon w0).2 = None ∧
  (freja unreachable_freja noon w0).2 = None ∧
  cookies <$> (freja cancelled_freja noon w0).2 = Some [] ∧
  (freja {| freja_login := None; freja_type := None |} noon w0).2
    = Some (reply 400 (JObj [("error", JStr "Epost eller personnummer måste anges")])) ∧
  (freja eva_freja noon w0).2 ≠ (freja lars_freja noon w0).2.
Proof.
  split; [vm_compute; reflexivity|]. split; [vm_compute; reflexivity|].
  split; [vm_compute; reflexivity|]. split; [vm_compute; reflexivity|].
  vm_compute. discriminate.
Qed.

Lemma setup_enrolls_witness :
  truthy (setup_email ada_setup) = true ∧
  truthy (setup_password ada_setup) = true ∧
  stored w0 (setup_email ada_setup) = Some ada ∧
  bcrypt_compare (setup_password ada_setup) (password ada) = Ok true ∧
  ∃ secret u' url,
    secret = generateSecret 20 (entropy noon) ∧
    u' = {| email := email ada; password := password ada;
            twoFactorSecret := Some (base32 secret) |} ∧
    url = otpauthURL (ascii secret) "Bonnier" "Exjobb" ∧
    db (setup ada_setup noon w0).1 = <[email ada := u']> (db w0) ∧
    (setup_email ada_setup = Some (email ada) ->
     stored (setup ada_setup noon w0).1 (setup_email ada_setup) = Some u') ∧
    (∀ e, e ≠ email ada -> db (setup ada_setup noon w0).1 !! e = db w0 !! e) ∧
    made w0 (setup ada_setup noon w0).1 =
      [EFindOne (setup_email ada_setup); ECompare (setup_password ada_setup) (password ada);
       EGenerateSecret 20; ESave u';
       EOtpauthURL (ascii secret) "Bonnier" "Exjobb"; EToDataURL url] ∧
    (∀ qrCodeImageUrl, toDataURL url = Ok qrCodeImageUrl ->
       (setup ada_setup noon w0).2 = enrollment qrCodeImageUrl).
Proof.
  assert (stored w0 (setup_email ada_setup) = Some ada) as E by (vm_compute; reflexivity).
  assert (bcrypt_compare (setup_password ada_setup) (password ada) = Ok true) as P
    by (vm_compute; reflexivity).
  split; [reflexivity|]. split; [reflexivity|]. split; [exact E|]. split; [exact P|].
  exact (setup_enrolls ada_setup noon w0 ada eq_refl eq_refl E P).
Defined.

(** C7, as stated, fails: the label that goes into the enrollment URI
    is "Bonnier" for ada and for bo alike, so that with the same secret
    drawn the two accounts get the very same URI and image; the label
    does not identify the enrolling account. *)
Lemma enrollment_label_same_for_every_account :
  EOtpauthURL "odd" "Bonnier" "Exjobb" ∈ made w0 (setup ada_setup noon w0).1 ∧
  EOtpauthURL "odd" "Bonnier" "Exjobb" ∈ made w0 (setup (bo_setup (Some "p2")) noon w0).1 ∧
  setup_email ada_setup ≠ setup_email (bo_setup (Some "p2")) ∧
  (setup ada_setup noon w0).2 = (setup (bo_setup (Some "p2")) noon w0).2 ∧
  (setup ada_setup noon w0).2
    = enrollment "data:image/png;base64,otpauth://totp/Bonnier?secret=odd&issuer=Exjobb".
Proof.
  split; [vm_compute; set_solver|]. split; [vm_compute; set_solver|].
  split; [discriminate|]. split; vm_compute; reflexivity.
Qed.

Lemma register_twice_rejected_witness :
  status (register (cy_register (Some "p3")) empty_world).2 = 200 ∧
  (register (cy_register (Some "other"))
     (register (cy_register (Some "p3")) empty_world).1).2 = duplicate_account.
Proof.
  assert (status (register (cy_register (Some "p3")) empty_world).2 = 200) as S
    by (vm_compute; reflexivity).
  split; [exact S|].
  destruct (register_twice_rejected (Some "cy@x.com") (Some "p3") (Some "other")
              empty_world S) as (_ & _ & _ & D & _).
  exact (D eq_refl).
Defined.

(** Outside Register's input constraints: a second registration that
    carries an empty password is answered with the validation error,
    before the duplicate check. *)
Example register_twice_empty_password_is_validation_error :
  status (register (cy_register (Some "p3")) empty_world).2 = 200 ∧
  (register (cy_register (Some ""))
     (register (cy_register (Some "p3")) empty_world).1).2 = credentials_required ∧
  (register (cy_register (Some ""))
     (register (cy_register (Some "p3")) empty_world).1).2 ≠ duplicate_account.
Proof.
  split; [vm_compute; reflexivity|]. split; [vm_compute; reflexivity|].
  vm_compute. discriminate.
Qed.

(** The reference store is keyed by email, and its key pair is sound. *)
Lemma keyed_w0 : keyed w0.
Proof.
  assert (keyed empty_world) as K0.
  { intros e u. simpl. rewrite lookup_empty. discriminate. }
  exact (keyed_insert _ ada [] (keyed_insert empty_world bo [] K0)).
Qed.

Lemma reference_keys_sound (cl : claims) :
  jws_verify "RS256" publicKey cl (jws_sign "RS256" privateKey cl) = true.
Proof. reflexivity. Qed.

Lemma verify_agrees_with_login_witness :
  truthy (Some "ada@x.com") = true ∧ truthy (Some "Q3KG3VM") = true ∧
  stored w0 (Some "ada@x.com") = Some ada ∧ enrolled ada = true ∧
  bcrypt_compare (Some "p1") (password ada) = Ok true ∧
  (status (verify {| verify_email := Some "ada@x.com"; verify_token := Some "Q3KG3VM" |}
             noon w0).2 = 200
   ↔ status (login (ada_login (Some "Q3KG3VM")) noon w0).2 = 200).
Proof.
  assert (stored w0 (Some "ada@x.com") = Some ada) as E by (vm_compute; reflexivity).
  assert (bcrypt_compare (Some "p1") (password ada) = Ok true) as P
    by (vm_compute; reflexivity).
  split; [reflexivity|]. split; [reflexivity|]. split; [exact E|].
  split; [reflexivity|]. split; [exact P|].
  exact (proj1 (verify_agrees_with_login (Some "ada@x.com") (Some "p1") (Some "Q3KG3VM")
                  noon w0 ada eq_refl eq_refl E eq_refl P)).
Defined.

Lemma check_foretells_login_witness :
  stored w0 (Some "ada@x.com") = Some ada ∧
  bcrypt_compare (Some "p1") (password ada) = Ok true ∧
  ((check {| check_email := Some "ada@x.com" |} w0).2
     = reply 200 (JObj [("twoFactor", JBool true)])
   ↔ ETotpVerify (twoFactorSecret ada) None ∈ made w0 (login (ada_login None) noon w0).1).
Proof.
  assert (stored w0 (Some "ada@x.com") = Some ada) as E by (vm_compute; reflexivity).
  assert (bcrypt_compare (Some "p1") (password ada) = Ok true) as P
    by (vm_compute; reflexivity).
  split; [exact E|]. split; [exact P|].
  exact (proj2 (proj2 (check_foretells_login (Some "ada@x.com") (Some "p1") None noon w0)
                  ada E) P).
Defined.

Lemma token_accepted_earlier_witness :
  authenticateToken (Compact ada_token) (now noon + 1000)
    = Forwarded (Some (JStr "ada@x.com")) ∧
  now noon <= now noon + 1000 ∧
  authenticateToken (Compact ada_token) (now noon) = Forwarded (Some (JStr "ada@x.com")).
Proof.
  assert (authenticateToken (Compact ada_token) (now noon + 1000)
          = Forwarded (Some (JStr "ada@x.com"))) as A by (vm_compute; reflexivity).
  assert (now noon <= now noon + 1000) as L by lia.
  split; [exact A|]. split; [exact L|].
  exact (token_accepted_earlier (Compact ada_token) (now noon + 1000) (now noon) _ A L).
Defined.

Lemma setup_render_failure_still_enrolls_witness :
  keyed w0 ∧
  stored w0 (setup_email ada_setup) = Some ada ∧
  @bcrypt_compare no_renderer (setup_password ada_setup) (password ada) = Ok true ∧
  @toDataURL no_renderer
    (@otpauthURL no_renderer (ascii (@generateSecret no_renderer 20 (entropy noon)))
       "Bonnier" "Exjobb") = Throw "canvas unavailable" ∧
  status (@setup no_renderer ada_setup noon w0).2 = 500 ∧
  stored (@setup no_renderer ada_setup noon w0).1 (setup_email ada_setup)
    = Some {| email := "ada@x.com"; password := hash "p1"; twoFactorSecret := Some "N5SGI" |}.
Proof.
  assert (stored w0 (setup_email ada_setup) = Some ada) as E by (vm_compute; reflexivity).
  assert (@bcrypt_compare no_renderer (setup_password ada_setup) (password ada) = Ok true)
    as P by (vm_compute; reflexivity).
  split; [exact keyed_w0|]. split; [exact E|]. split; [exact P|].
  split; [reflexivity|].
  destruct (@setup_render_failure_still_enrolls no_renderer ada_setup noon w0 ada
              "canvas unavailable" keyed_w0 eq_refl eq_refl E P eq_refl) as [R S].
  split; [rewrite R; reflexivity | exact S].
Defined.

Lemma setup_then_second_factor_required_witness :
  keyed w0 ∧
  stored w0 (Some "bo@x.com") = Some bo ∧
  bcrypt_compare (Some "p2") (password bo) = Ok true ∧
  base32 (generateSecret 20 (entropy noon)) ≠ "" ∧
  (check {| check_email := Some "bo@x.com" |} (setup (bo_setup (Some "p2")) noon w0).1).2
    = reply 200 (JObj [("twoFactor", JBool true)]).
Proof.
  assert (stored w0 (Some "bo@x.com") = Some bo) as E by (vm_compute; reflexivity).
  assert (bcrypt_compare (Some "p2") (password bo) = Ok true) as P
    by (vm_compute; reflexivity).
  assert (base32 (generateSecret 20 (entropy noon)) ≠ "") as N by (vm_compute; discriminate).
  split; [exact keyed_w0|]. split; [exact E|]. split; [exact P|]. split; [exact N|].
  exact (proj1 (setup_then_second_factor_required (Some "bo@x.com") (Some "p2") noon w0 bo
                  keyed_w0 eq_refl eq_refl E P N)).
Defined.

Lemma register_succeeds_iff_witness :
  status (register (cy_register (Some "p3")) empty_world).2 = 200 ∧
  db (register (cy_register (Some "p3")) empty_world).1
    = <["cy@x.com" := {| email := "cy@x.com"; password := hash "p3";
                         twoFactorSecret := None |}]> ∅.
Proof.
  assert (status (register (cy_register (Some "p3")) empty_world).2 = 200) as S
    by (vm_compute; reflexivity).
  split; [exact S|].
  exact (proj1 (proj2 (proj1 (proj2 (register_succeeds_iff (cy_register (Some "p3"))
                                        empty_world)) S))).
Defined.

Lemma register_then_login_witness :
  stored empty_world (Some "cy@x.com") = None ∧
  (status (login {| login_email := Some "cy@x.com"; login_password := Some "p3";
                    login_twoFactorToken := None |} noon
             (register (cy_register (Some "p3")) empty_world).1).2 = 200
   ↔ bcrypt_compare (Some "p3") (bcrypt_hash "p3") = Ok true).
Proof.
  assert (stored empty_world (Some "cy@x.com") = None) as E by reflexivity.
  split; [exact E|].
  exact (proj1 (proj2 (register_then_login (Some "cy@x.com") (Some "p3") (Some "p3") None
                         noon empty_world eq_refl eq_refl E))).
Defined.

Lemma accounts_persist_witness :
  keyed w0 ∧
  stored w0 (Some "ada@x.com") = Some ada ∧
  stored (register (cy_register (Some "p3")) w0).1 (Some "ada@x.com") = Some ada.
Proof.
  assert (stored w0 (Some "ada@x.com") = Some ada) as E by (vm_compute; reflexivity).
  split; [exact keyed_w0|]. split; [exact E|].
  exact (proj1 (accounts_persist (cy_register (Some "p3")) ada_setup noon w0
                  (Some "ada@x.com") ada keyed_w0 E)).
Defined.

Lemma login_token_authenticates_witness :
  (∀ cl, jws_verify "RS256" publicKey cl (jws_sign "RS256" privateKey cl) = true) ∧
  keyed w0 ∧
  cookies (login (ada_login (Some "Q3KG3VM")) noon w0).2 = [("token", ada_token)] ∧
  (now noon + 60000) / 1000 < now noon / 1000 + 3600 ∧
  ∃ e, login_email (ada_login (Some "Q3KG3VM")) = Some e ∧
       authenticate (Compact ada_token) (now noon + 60000)
         = reply 200 (JObj [("status", JStr "success"); ("email", JStr e)]).
Proof.
  assert ((now noon + 60000) / 1000 < now noon / 1000 + 3600) as L
    by (vm_compute; reflexivity).
  assert (cookies (login (ada_login (Some "Q3KG3VM")) noon w0).2 = [("token", ada_token)])
    as Ck by (vm_compute; reflexivity).
  split; [exact reference_keys_sound|]. split; [exact keyed_w0|]. split; [exact Ck|].
  split; [exact L|].
  destruct (login_token_authenticates (ada_login (Some "Q3KG3VM")) noon w0 ada_token
              (now noon + 60000) reference_keys_sound keyed_w0 Ck) as (e & Ee & Live & _).
  exists e. split; [exact Ee | exact (Live L)].
Defined.

Lemma freja_token_authenticates_witness :
  truthy (freja_login eva_freja) = true ∧
  completed (JObj [("status", JStr "completed");
                   ("extra", JObj [("primaryEmail", JStr "eva@example.se")])]) = Ok true ∧
  now noon / 1000 < now noon / 1000 + 3600 ∧
  ∃ token,
    cookies <$> (freja eva_freja noon empty_world).2 = Some [("token", token)] ∧
    authenticate (Compact token) (now noon)
      = reply 200 (JObj [("status", JStr "success"); ("email", JStr "eva@example.se")]).
Proof.
  assert (now noon / 1000 < now noon / 1000 + 3600) as L by lia.
  split; [reflexivity|]. split; [reflexivity|]. split; [exact L|].
  exact (freja_token_authenticates eva_freja noon empty_world _
           (Some (JStr "eva@example.se")) (now noon) reference_keys_sound
           eq_refl eq_refl eq_refl eq_refl L).
Defined.

End Scenarios.
